(** * tf2autobot: inventory diff, reputation aggregator, price-feed socket

    A shallow embedding of
      - [src/lib/extend/offer/getDiff.ts]            (module [GetDiff]),
      - the [Bans] class that follows it             (module [Bans]),
      - [src/lib/pricer/pricestf/prices-tf-socket-manager.ts]
                                                     (module [PricesTfSocketManager]),
    together with the properties of these functions.

    Conventions.  A JavaScript object used as a dictionary is a [gmap string _];
    [undefined]/[null] in an optional position is [None]; a promise is
    represented by the way it eventually settles ([Promise]); method calls,
    HTTP requests and log lines are recorded in a trace carried by the state. *)

From Stdlib Require Import ZArith Ascii String.
From stdpp Require Import base option list strings gmap fin_maps.

Local Open Scope Z_scope.

(** ** JavaScript values shared by the three modules *)

Module JS.

(** Values a promise can reject with, or a handler can throw.  Every one of
    them is an object, hence truthy: the guards [if (err)] of the source are
    always taken.  [AbortSignalValue] is the only value for which
    [err instanceof AbortSignal] holds; [CanceledError] is the [AxiosError]
    produced when a request is cancelled through its [signal]. *)
Inductive JsError : Type :=
| AxiosError (message : string)
| CanceledError
| TypeError (message : string)
| Error (message : string)
| AbortSignalValue.

Definition instanceof_AbortSignal (err : JsError) : bool :=
  match err with AbortSignalValue => true | _ => false end.

Global Instance JsError_eq_dec : EqDecision JsError.
Proof. solve_decision. Defined.

(** The eventual state of a promise: fulfilled, rejected, or never settled. *)
Inductive Promise (A : Type) : Type :=
| Resolved (value : A)
| Rejected (reason : JsError)
| Pending.
Global Arguments Resolved {A} value.
Global Arguments Rejected {A} reason.
Global Arguments Pending {A}.

(** [a || 0] on a number that may be [undefined]: [undefined] and [0] both
    give [0]. *)
Definition or_zero (v : option Z) : Z :=
  match v with
  | Some x => if x =? 0 then 0 else x
  | None => 0
  end.

(** [a ?? b] *)
Definition nullish {A} (a : option A) (b : A) : A :=
  match a with Some x => x | None => b end.

(** [String.prototype.toLowerCase], on 8-bit characters: the letters [A]-[Z]
    are the ones that change. *)
Definition lower_char (c : ascii) : ascii :=
  let n := N_of_ascii c in
  if ((65 <=? n) && (n <=? 90))%N then ascii_of_N (n + 32) else c.

Fixpoint toLowerCase (s : string) : string :=
  match s with
  | EmptyString => EmptyString
  | String c s' => String (lower_char c) (toLowerCase s')
  end.

(** [String.prototype.indexOf]: index of the first occurrence, or [-1]. *)
Fixpoint indexOf_from (i : Z) (s pat : string) : Z :=
  if String.prefix pat s then i
  else match s with
       | EmptyString => -1
       | String _ s' => indexOf_from (i + 1) s' pat
       end.

Definition indexOf (s pat : string) : Z := indexOf_from 0 s pat.

(** [s] has an occurrence of [pat]. *)
Definition includes (s pat : string) : Prop :=
  ∃ pre post, s = pre +:+ pat +:+ post.

(** Some stretch of [s] is [pat] up to the case of its letters. *)
Definition includes_ignoring_case (s pat : string) : Prop :=
  ∃ pre mid post, s = pre +:+ mid +:+ post ∧ toLowerCase mid = toLowerCase pat.

End JS.
Import JS.

(** ** [getDiff]: signed per-item difference of the two sides of an offer

    Quantities are item counts; they are modelled as integers. *)

Module GetDiff.

(** The value stored under the offer's ["dict"] key. *)
Record Dict : Type := { our : gmap string Z; their : gmap string Z }.

(** [TradeOffer.data(key)]: [None] is [undefined]. *)
Record TradeOffer : Type := { data : string → option Dict }.

(** [for (const sku in o) { if (!hasOwnProperty(o, sku)) continue; body }]:
    the own entries of [o], each visited once.  The order of the visits is
    the one of [map_to_list]; for the two loops of [getDiff] any other order
    gives the same mapping ([GetDiffProofs.loop_any_order]). *)
Definition for_in {A} (o : gmap string Z) (body : A → string * Z → A) (init : A) : A :=
  foldl body init (map_to_list o).

(** [diff[sku] = (diff[sku] || 0) - dict.our[sku]] *)
Definition sub_our (diff : gmap string Z) (e : string * Z) : gmap string Z :=
  <[e.1 := or_zero (diff !! e.1) - e.2]> diff.

(** [diff[sku] = (diff[sku] || 0) + dict.their[sku]] *)
Definition add_their (diff : gmap string Z) (e : string * Z) : gmap string Z :=
  <[e.1 := or_zero (diff !! e.1) + e.2]> diff.

(** The exported function; [None] is [null]. *)
Definition getDiff (self : TradeOffer) : option (gmap string Z) :=
  match data self "dict" with
  | None => None
  | Some dict =>
      let diff := for_in (our dict) sub_our ∅ in
      let diff := for_in (their dict) add_their diff in
      Some diff
  end.


End GetDiff.

(** ** [Bans]: the reputation aggregator *)

Module SiteResult.
(** [interface SiteResult { isBanned: boolean; content?: string }].
    Where the source stores a merely falsy value in [isBanned] (the
    [undefined] of [user.bans && ...]) the model stores [false]: the field is
    only ever tested for truthiness. *)
Record t : Type := mk { isBanned : bool; content : option string }.
End SiteResult.

(** [type Contents = { [website: string]: string }]; a value can be
    [undefined] when it is copied from an optional [content]. *)
Abbreviation Contents := (gmap string (option string)).

Module IsBanned.
(** [interface IsBanned { isBanned: boolean; contents?: Contents }] *)
Record t : Type := mk { isBanned : bool; contents : option Contents }.
End IsBanned.

(** [SiteResult | 'Error'], or [null] (the source: "can also be null"). *)
Inductive SiteEntry : Type :=
| EntryError
| EntryNull
| Entry (r : SiteResult.t).

Module RepAutobotTf.
(** The fields of [interface RepAutobotTf] that the code reads. *)
Record t : Type := mk {
  isBanned : bool;
  contents : gmap string SiteEntry;
  isBannedExcludeMptf : bool
}.
End RepAutobotTf.

Module ResultSources.
(** [interface ResultSources]; [None] is a check that gave no result. *)
Record t : Type := mk {
  bptf : option SiteResult.t;
  mptf : option SiteResult.t;
  steamrep : option SiteResult.t;
  untrusted : option SiteResult.t
}.
End ResultSources.

Module Bans.

(** *** Responses of the remote services *)

(** [MptfBan], [MptfResult], [MptfGetUserBan]: the fields that are read.
    [banned] and [ban] may be missing ([?? false], [?.type ?? '']);
    [results = None] stands for a value that is not an array. *)
Record MptfBan : Type := { type : string }.
Record MptfResult : Type :=
  { steamid : string; banned : option bool; ban : option MptfBan }.
Record MptfGetUserBan : Type := { results : option (list MptfResult) }.

Record Reputation : Type := { full : option string; summary : option string }.
Record Details : Type := { reputation : option Reputation }.
Record SteamRep : Type := { steamrep : Details }.

Record UntrustedJsonSteamidsContent : Type := { reason : string; source : string }.
Record UntrustedJson : Type :=
  { steamids : gmap string UntrustedJsonSteamidsContent }.

(** Modelled from the spec: the declaration of [BPTFGetUserInfo] lives in
    [classes/MyHandler/interfaces], which is not part of the sources at hand;
    its shape is the one the field accesses of [isBptfBanned] require
    ([all_features] is the field ['all features']). *)
Record BptfBan : Type := { ban_reason : option string }.
Record BptfBans : Type :=
  { all : option BptfBan; all_features : option BptfBan; steamrep_scammer : option Z }.
Record BptfUser : Type := { bans : option BptfBans }.
Record BPTFGetUserInfo : Type := { users : gmap string BptfUser }.

(** What an [axios] call settles with: [then (response)] or [catch (err)]. *)
Inductive Fetch (A : Type) : Type :=
| Response (data : A)
| Failure (err : JsError).
Global Arguments Response {A} data.
Global Arguments Failure {A} err.

Inductive Attempt : Type := first | retry.

Global Instance Attempt_eq_dec : EqDecision Attempt.
Proof. solve_decision. Defined.

(** The outside world of one [isBanned()] call: how each request ends. *)
Record Network : Type := {
  rep_autobot_tf : Fetch RepAutobotTf.t;
  github_untrusted : Attempt → Fetch UntrustedJson;
  marketplace_tf : Fetch (option MptfGetUserBan);
  steamrep_com : Fetch SteamRep;
  backpack_tf : Fetch BPTFGetUserInfo
}.

(** *** The instance *)

Inductive ShowLog : Type := ShowAll | ShowBanned.

(** Modelled from the spec: [Bot] and its options are declared in
    [classes/Bot] and [classes/Options], which are not part of the sources at
    hand ("a configuration object exposing reputation-check toggles and
    credentials"); these are the settings the class reads.  [checkMptfBanned]
    is [miscSettings.reputationCheck.checkMptfBanned]; a key that is [None]
    is [undefined]. *)
Record Options : Type := {
  checkMptfBanned : bool;
  mptfApiKey : option string;
  bptfApiKey : option string
}.

(** The read-only fields of the instance; [showLog = None] is a falsy value. *)
Record Self : Type := {
  options : Options;
  userID : option string;
  steamID : string;
  showLog : option ShowLog
}.

(** The five cached flags; [None] is the initial [null]. *)
Record Cache : Type := {
  _isBptfBanned : option bool;
  _isBptfSteamRepBanned : option bool;
  _isSteamRepBanned : option bool;
  _isCommunityBanned : option bool;
  _isMptfBanned : option bool
}.

Definition fresh : Cache :=
  {| _isBptfBanned := None; _isBptfSteamRepBanned := None;
     _isSteamRepBanned := None; _isCommunityBanned := None;
     _isMptfBanned := None |}.

Definition truthy (b : option bool) : bool := nullish b false.

(** Truthiness of a string that may be [undefined]. *)
Definition truthy_string (s : option string) : bool :=
  match s with
  | Some s => negb (String.eqb s "")
  | None => false
  end.

(** *** Observable actions *)

Inductive Method : Type :=
| ResultsFromAutobot
| IsListedUntrusted (attempt : Attempt)
| IsMptfBanned
| IsSteamRepMarked
| IsBptfBanned.

Inductive Endpoint : Type :=
| RepAutobotTfJson
| GithubUntrustedJson
| MarketplaceTfGetUserBan
| SteamRepReputation
| BackpackTfUsersInfo.

Inductive Level : Type := warn | debug.

Inductive Event : Type :=
| Invoke (m : Method)
| Request (e : Endpoint)
| Log (level : Level) (message : string).

Global Instance Method_eq_dec : EqDecision Method.
Proof. solve_decision. Defined.
Global Instance Endpoint_eq_dec : EqDecision Endpoint.
Proof. solve_decision. Defined.
Global Instance Level_eq_dec : EqDecision Level.
Proof. solve_decision. Defined.
Global Instance Event_eq_dec : EqDecision Event.
Proof. solve_decision. Defined.

Record State : Type := { cache : Cache; trace : list Event }.

(** *** A state monad for the methods *)

Definition M (A : Type) : Type := State → A * State.

Global Instance M_ret : MRet M := λ A a st, (a, st).
Global Instance M_bind : MBind M := λ A B f m st, let (a, st') := m st in f a st'.

Definition emit (e : Event) : M unit :=
  λ st, (tt, {| cache := cache st; trace := trace st ++ [e] |}).

Definition get_cache : M Cache := λ st, (cache st, st).

Definition update_cache (f : Cache → Cache) : M unit :=
  λ st, (tt, {| cache := f (cache st); trace := trace st |}).

Definition when (b : bool) (m : M unit) : M unit := if b then m else mret tt.

Definition set_isBptfBanned (v : bool) (c : Cache) : Cache :=
  {| _isBptfBanned := Some v; _isBptfSteamRepBanned := _isBptfSteamRepBanned c;
     _isSteamRepBanned := _isSteamRepBanned c; _isCommunityBanned := _isCommunityBanned c;
     _isMptfBanned := _isMptfBanned c |}.
Definition set_isBptfSteamRepBanned (v : bool) (c : Cache) : Cache :=
  {| _isBptfBanned := _isBptfBanned c; _isBptfSteamRepBanned := Some v;
     _isSteamRepBanned := _isSteamRepBanned c; _isCommunityBanned := _isCommunityBanned c;
     _isMptfBanned := _isMptfBanned c |}.
Definition set_isSteamRepBanned (v : bool) (c : Cache) : Cache :=
  {| _isBptfBanned := _isBptfBanned c; _isBptfSteamRepBanned := _isBptfSteamRepBanned c;
     _isSteamRepBanned := Some v; _isCommunityBanned := _isCommunityBanned c;
     _isMptfBanned := _isMptfBanned c |}.
Definition set_isCommunityBanned (v : bool) (c : Cache) : Cache :=
  {| _isBptfBanned := _isBptfBanned c; _isBptfSteamRepBanned := _isBptfSteamRepBanned c;
     _isSteamRepBanned := _isSteamRepBanned c; _isCommunityBanned := Some v;
     _isMptfBanned := _isMptfBanned c |}.
Definition set_isMptfBanned (v : bool) (c : Cache) : Cache :=
  {| _isBptfBanned := _isBptfBanned c; _isBptfSteamRepBanned := _isBptfSteamRepBanned c;
     _isSteamRepBanned := _isSteamRepBanned c; _isCommunityBanned := _isCommunityBanned c;
     _isMptfBanned := Some v |}.

(** *** The methods

    Each per-site check is split in the part that runs when the method is
    called ([_start]: it issues the request, or settles at once) and the
    part that runs when the response arrives ([_then], [_catch]). *)

Abbreviation R := (option SiteResult.t).

(** A promise handed to [Promise.all]: still waiting for its response, or
    settled for good (possibly as "never settles"). *)
Inductive Slot : Type :=
| Awaiting
| Settled (p : Promise R).

Definition outcome (s : Slot) : Promise R :=
  match s with Awaiting => Pending | Settled p => p end.

Inductive Site : Type := Untrusted | Mptf | SteamRepCom | Bptf.

Record Slots : Type := {
  untrusted_slot : Slot;
  mptf_slot : Slot;
  steamrep_slot : Slot;
  bptf_slot : Slot
}.

(** [Object.keys(o)] *)
Definition Object_keys {A} (o : gmap string A) : list string := (map_to_list o).*1.

(** The [for] loop of [isMptfBanned]: the first entry of [results] whose
    [steamid] is the subject's. *)
Fixpoint mptf_scan (steamID : string) (results : list MptfResult) : option MptfResult :=
  match results with
  | [] => None
  | r :: rest => if String.eqb steamID (steamid r) then Some r else mptf_scan steamID rest
  end.

(** [`banned${c !== '' ? ` - ${c}` : ''}`] or ['clean'] *)
Definition describe (r : SiteResult.t) : string :=
  if SiteResult.isBanned r then
    "banned" +:+
      match SiteResult.content r with
      | Some "" => ""
      | Some c => " - " +:+ c
      | None => " - undefined"
      end
  else "clean".

Section Methods.
Variable self : Self.
Variable net : Network.

(** [if (this.showLog)] *)
Definition logging : bool :=
  match showLog self with Some _ => true | None => false end.

Definition resultsFromAutobot : M (Promise RepAutobotTf.t) :=
  emit (Invoke ResultsFromAutobot);;
  emit (Request RepAutobotTfJson);;
  mret (match rep_autobot_tf net with
        | Response data => Resolved data
        | Failure err => Rejected err
        end).

(** **** backpack.tf *)

Definition isBptfBanned_start : M Slot :=
  emit (Invoke IsBptfBanned);;
  if negb (truthy_string (bptfApiKey (options self)))
  then mret (Settled (Resolved None))
  else emit (Request BackpackTfUsersInfo);; mret Awaiting.

Definition isBptfBanned_catch (err : JsError) : M (Promise R) :=
  when logging (emit (Log warn "Failed to get data from backpack.tf");;
                emit (Log debug "filterAxiosError(err)"));;
  mret (Resolved None).

Definition isBptfBanned_then (data : BPTFGetUserInfo) : M (Promise R) :=
  match users data !! steamID self with
  | None => isBptfBanned_catch (TypeError "Cannot read properties of undefined (reading 'bans')")
  | Some user =>
      let isBptfBanned :=
        match bans user with
        | Some b => bool_decide (is_Some (all b)) || bool_decide (is_Some (all_features b))
        | None => false
        end in
      let banReason :=
        match bans user with
        | Some b => nullish (all b ≫= ban_reason)
                            (nullish (all_features b ≫= ban_reason) "")
        | None => ""
        end in
      update_cache (set_isBptfBanned isBptfBanned);;
      update_cache (set_isBptfSteamRepBanned
                      match bans user with
                      | Some b => bool_decide (steamrep_scammer b = Some 1)
                      | None => false
                      end);;
      mret (Resolved (Some (SiteResult.mk isBptfBanned (Some banReason))))
  end.

Definition isBptfBanned_response : M (Promise R) :=
  match backpack_tf net with
  | Response data => isBptfBanned_then data
  | Failure err => isBptfBanned_catch err
  end.

(** **** steamrep.com *)

Definition isSteamRepMarked_start : M Slot :=
  emit (Invoke IsSteamRepMarked);;
  emit (Request SteamRepReputation);;
  mret Awaiting.

Definition isSteamRepMarked_catch (err : JsError) : M (Promise R) :=
  when logging (emit (Log warn "Failed to get data from SteamRep");;
                emit (Log debug "filterAxiosError(err)"));;
  c ← get_cache;
  match _isBptfSteamRepBanned c with
  | Some b => mret (Resolved (Some (SiteResult.mk b None)))
  | None => mret (Resolved None)
  end.

(** [reputation?.summary.toLowerCase().indexOf('scammer') !== -1]: a
    missing [reputation] short-circuits the chain to [undefined]; a
    missing [summary] makes [.toLowerCase()] throw. *)
Definition isSteamRepMarked_then (data : SteamRep) : M (Promise R) :=
  let rep := reputation (steamrep data) in
  let test : JsError + bool :=
    match rep with
    | None => inr true
    | Some r =>
        match summary r with
        | None => inl (TypeError "Cannot read properties of undefined (reading 'toLowerCase')")
        | Some s => inr (negb (indexOf (toLowerCase s) "scammer" =? -1))
        end
    end in
  match test with
  | inl err => isSteamRepMarked_catch err
  | inr isSteamRepBanned =>
      let fullRepInfo := nullish (rep ≫= full) "" in
      update_cache (set_isSteamRepBanned isSteamRepBanned);;
      mret (Resolved (Some (SiteResult.mk isSteamRepBanned (Some fullRepInfo))))
  end.

Definition isSteamRepMarked_response : M (Promise R) :=
  match steamrep_com net with
  | Response data => isSteamRepMarked_then data
  | Failure err => isSteamRepMarked_catch err
  end.

(** **** marketplace.tf *)

Definition isMptfBanned_start : M Slot :=
  emit (Invoke IsMptfBanned);;
  if negb (checkMptfBanned (options self)) then mret (Settled (Resolved None))
  else if bool_decide (mptfApiKey (options self) = Some "")
  then mret (Settled (Rejected (Error "Marketplace.tf API key was not set.")))
  else emit (Request MarketplaceTfGetUserBan);; mret Awaiting.

Definition isMptfBanned_then (data : option MptfGetUserBan) : M (Promise R) :=
  match data ≫= results with
  | None =>
      emit (Log debug "Marketplace.tf returned invalid data");;
      mret (Resolved None)
  | Some results =>
      match mptf_scan (steamID self) results with
      | Some r =>
          update_cache (set_isMptfBanned (nullish (banned r) false));;
          mret (Resolved (Some (SiteResult.mk (nullish (banned r) false)
                                              (Some (nullish (type <$> ban r) "")))))
      | None => mret (Resolved (Some (SiteResult.mk false None)))
      end
  end.

Definition isMptfBanned_catch (err : JsError) : M (Promise R) :=
  when logging (emit (Log warn "Failed to get data from Marketplace.tf"));;
  mret (Resolved None).

Definition isMptfBanned_response : M (Promise R) :=
  match marketplace_tf net with
  | Response data => isMptfBanned_then data
  | Failure err => isMptfBanned_catch err
  end.

(** **** the untrusted list

    [this_isListedUntrusted] is the method itself, as called from its own
    [catch] handler.  The handler returns the promise of the second call
    into the promise chain, which nobody reads; [resolve] is not called on
    that path, so the promise of the first call never settles. *)

Definition isListedUntrusted_start (attempt : Attempt) : M Slot :=
  emit (Invoke (IsListedUntrusted attempt));;
  emit (Request GithubUntrustedJson);;
  mret Awaiting.

Definition isListedUntrusted_then (data : UntrustedJson) : M (Promise R) :=
  match steamids data !! steamID self with
  | None => mret (Resolved (Some (SiteResult.mk false None)))
  | Some results =>
      update_cache (set_isCommunityBanned true);;
      mret (Resolved (Some (SiteResult.mk true
        (Some ("Reason: " +:+ reason results +:+ " - Source: " +:+ source results)))))
  end.

Definition isListedUntrusted_catch
    (this_isListedUntrusted : Attempt → M (Promise R))
    (attempt : Attempt) (err : JsError) : M (Promise R) :=
  if instanceof_AbortSignal err && negb (bool_decide (attempt = retry)) then
    this_isListedUntrusted retry;;
    mret Pending
  else
    when logging (emit (Log warn "Failed to get data from Github");;
                  emit (Log debug "err"));;
    mret (Resolved None).

Definition isListedUntrusted_response
    (this_isListedUntrusted : Attempt → M (Promise R))
    (attempt : Attempt) : M (Promise R) :=
  match github_untrusted net attempt with
  | Response data => isListedUntrusted_then data
  | Failure err => isListedUntrusted_catch this_isListedUntrusted attempt err
  end.

Definition isListedUntrusted_body
    (this_isListedUntrusted : Attempt → M (Promise R))
    (attempt : Attempt) : M (Promise R) :=
  isListedUntrusted_start attempt;;
  isListedUntrusted_response this_isListedUntrusted attempt.

(** The recursion is at most one call deep: two unfoldings of the body are
    the whole function (see [isListedUntrusted_unfold]). *)
Definition isListedUntrusted (attempt : Attempt) : M (Promise R) :=
  isListedUntrusted_body (isListedUntrusted_body (λ _, mret Pending)) attempt.

(** A check run on its own, from call to settlement. *)
Definition run_check (start : M Slot) (response : M (Promise R)) : M (Promise R) :=
  s ← start;
  match s with
  | Awaiting => response
  | Settled p => mret p
  end.

Definition isBptfBanned : M (Promise R) := run_check isBptfBanned_start isBptfBanned_response.
Definition isSteamRepMarked : M (Promise R) :=
  run_check isSteamRepMarked_start isSteamRepMarked_response.
Definition isMptfBanned : M (Promise R) := run_check isMptfBanned_start isMptfBanned_response.

(** **** the aggregator *)

(** [logIsBanned]: may or may not print, depending on [showLog] and on
    the result. *)
Definition logIsBanned (result : IsBanned.t) : M unit :=
  match showLog self with
  | Some mode =>
      if IsBanned.isBanned result
      then emit (Log warn ("Bans result for " +:+ steamID self +:+ ":"))
      else match mode with
           | ShowAll => emit (Log debug ("Bans result for " +:+ steamID self +:+ ":"))
           | ShowBanned => mret tt
           end
  | None => mret tt
  end.

(** The result built from the answer of rep.autobot.tf. *)
Definition from_autobot_contents (contents : gmap string SiteEntry) : Contents :=
  foldl (λ (obj : Contents) (site : string),
           match contents !! site with
           | Some (Entry r) =>
               if SiteResult.isBanned r then <[site := SiteResult.content r]> obj else obj
           | _ => obj
           end)
        ∅ (Object_keys contents).

Definition from_autobot (fromRepAutobot : RepAutobotTf.t) : IsBanned.t :=
  let isBanned :=
    if checkMptfBanned (options self)
    then RepAutobotTf.isBanned fromRepAutobot
    else RepAutobotTf.isBannedExcludeMptf fromRepAutobot in
  IsBanned.mk isBanned (Some (from_autobot_contents (RepAutobotTf.contents fromRepAutobot))).

(** "always deny by default" *)
Definition default_result : IsBanned.t :=
  IsBanned.mk true
    (Some {[ "default-rule" :=
               Some "all offline and online ban checks failed. internet issues?" ]}).

Definition validResults (results : ResultSources.t) : list SiteResult.t :=
  omap (λ r : R, r)
    [ResultSources.bptf results; ResultSources.mptf results;
     ResultSources.steamrep results; ResultSources.untrusted results].

Definition set_site (site : string) (guard : bool) (r : R) (contents : Contents) : Contents :=
  match r with
  | Some r => if guard then <[site := Some (describe r)]> contents else contents
  | None => contents
  end.

Definition merged (results : ResultSources.t) : IsBanned.t :=
  let valid := validResults results in
  if bool_decide (0 < length valid)%nat then
    IsBanned.mk
      (existsb SiteResult.isBanned valid)
      (Some (set_site "Steamrep.com:" true (ResultSources.steamrep results)
            (set_site "TF2Autobot" true (ResultSources.untrusted results)
            (set_site "Marketplace.tf" (checkMptfBanned (options self))
                      (ResultSources.mptf results)
            (set_site "Backpack.tf" true (ResultSources.bptf results) ∅)))))
  else default_result.

Definition finalize (results : ResultSources.t) : M IsBanned.t :=
  let result := merged results in
  logIsBanned result;;
  mret result.

(** The [.catch] after [Promise.all]: "check if all cache say you are okay". *)
Definition any_cached_flag (c : Cache) : bool :=
  existsb truthy
    [ _isBptfBanned c; _isBptfSteamRepBanned c; _isSteamRepBanned c;
      _isCommunityBanned c;
      if checkMptfBanned (options self) then _isMptfBanned c else Some false ].

Definition catch_all (err : JsError) : M (Promise IsBanned.t) :=
  c ← get_cache;
  if negb (any_cached_flag c)
  then mret (Resolved (IsBanned.mk false None))
  else mret (Rejected err).

(** The array handed to [Promise.all]: the four calls, in source order. *)
Definition start_all : M Slots :=
  u ← isListedUntrusted_start first;
  m ← isMptfBanned_start;
  s ← isSteamRepMarked_start;
  b ← isBptfBanned_start;
  mret {| untrusted_slot := u; mptf_slot := m; steamrep_slot := s; bptf_slot := b |}.

Definition settle (s : Slot) (response : M (Promise R)) : M Slot :=
  match s with
  | Awaiting => p ← response; mret (Settled p)
  | Settled _ => mret s
  end.

(** The response of one site arrives and its handler runs. *)
Definition deliver (sl : Slots) (site : Site) : M Slots :=
  match site with
  | Untrusted =>
      s ← settle (untrusted_slot sl) (isListedUntrusted_response isListedUntrusted first);
      mret {| untrusted_slot := s; mptf_slot := mptf_slot sl;
              steamrep_slot := steamrep_slot sl; bptf_slot := bptf_slot sl |}
  | Mptf =>
      s ← settle (mptf_slot sl) isMptfBanned_response;
      mret {| untrusted_slot := untrusted_slot sl; mptf_slot := s;
              steamrep_slot := steamrep_slot sl; bptf_slot := bptf_slot sl |}
  | SteamRepCom =>
      s ← settle (steamrep_slot sl) isSteamRepMarked_response;
      mret {| untrusted_slot := untrusted_slot sl; mptf_slot := mptf_slot sl;
              steamrep_slot := s; bptf_slot := bptf_slot sl |}
  | Bptf =>
      s ← settle (bptf_slot sl) isBptfBanned_response;
      mret {| untrusted_slot := untrusted_slot sl; mptf_slot := mptf_slot sl;
              steamrep_slot := steamrep_slot sl; bptf_slot := s |}
  end.

(** The responses arrive in the order [arrival]; a site that does not
    occur in it never answers. *)
Fixpoint deliver_all (arrival : list Site) (sl : Slots) : M Slots :=
  match arrival with
  | [] => mret sl
  | site :: rest => sl' ← deliver sl site; deliver_all rest sl'
  end.

(** [Promise.all([untrusted, mptf, steamrep, bptf])]: rejected as soon as
    one of them is, fulfilled when all are. *)
Definition Promise_all (sl : Slots) : Promise ResultSources.t :=
  match outcome (untrusted_slot sl), outcome (mptf_slot sl),
        outcome (steamrep_slot sl), outcome (bptf_slot sl) with
  | Rejected err, _, _, _ => Rejected err
  | _, Rejected err, _, _ => Rejected err
  | _, _, Rejected err, _ => Rejected err
  | _, _, _, Rejected err => Rejected err
  | Resolved untrusted, Resolved mptf, Resolved steamrep, Resolved bptf =>
      Resolved (ResultSources.mk bptf mptf steamrep untrusted)
  | _, _, _, _ => Pending
  end.

(** The four checks of the fallback, from the calls to the last response. *)
Definition fan_out (arrival : list Site) : M Slots :=
  sl ← start_all;
  deliver_all arrival sl.

Definition fallback (arrival : list Site) : M (Promise IsBanned.t) :=
  sl ← start_all;
  match Promise_all sl with
  | Rejected err =>
      (* rejected before any response: the handler sees the cache of
         prior runs; the responses still arrive afterwards *)
      result ← catch_all err;
      deliver_all arrival sl;;
      mret result
  | _ =>
      sl ← deliver_all arrival sl;
      match Promise_all sl with
      | Resolved results => result ← finalize results; mret (Resolved result)
      | Rejected err => catch_all err
      | Pending => mret Pending
      end
  end.

Definition isBanned (arrival : list Site) : M (Promise IsBanned.t) :=
  fromRepAutobot ← resultsFromAutobot;
  match fromRepAutobot with
  | Resolved fromRepAutobot => mret (Resolved (from_autobot fromRepAutobot))
  | Rejected _ => fallback arrival
  | Pending => mret Pending
  end.

End Methods.

End Bans.

(** ** [PricesTfSocketManager]: the price-feed socket *)

Module PricesTfSocketManager.

(** The [ReconnectingWebSocket] held in [this.ws]: the names of the events
    that have a listener, in registration order. *)
Record Socket : Type := { listeners : list string }.

Inductive Payload : Type :=
| OfEvent (message : string)   (* the error event handed to the listener *)
| OfRejection (e : JsError).   (* the reason [setupToken()] was rejected with *)

Inductive Event : Type :=
| NewReconnectingWebSocket (url : string)
| WsClose
| WsReconnect
| ApiSetupToken
| LogDebug (message : string)
| LoggerError (message : string) (payload : Payload).

Global Instance Payload_eq_dec : EqDecision Payload.
Proof. solve_decision. Defined.
Global Instance Event_eq_dec : EqDecision Event.
Proof. solve_decision. Defined.

Record State : Type := { ws : option Socket; trace : list Event }.

(** How a piece of code ends: normally, or by throwing. *)
Inductive Completion : Type :=
| Normal
| Throw (e : JsError).

Definition M : Type := State → Completion * State.

Definition emit (e : Event) : M :=
  λ st, (Normal, {| ws := ws st; trace := trace st ++ [e] |}).

Definition seq (m1 m2 : M) : M :=
  λ st, match m1 st with
        | (Normal, st') => m2 st'
        | (Throw e, st') => (Throw e, st')
        end.
Infix ">>" := seq (at level 61, left associativity).

Definition skip : M := λ st, (Normal, st).

(** A method call on [this.ws]; on [undefined] it throws. *)
Definition on_ws (method : string) (e : Event) : M :=
  λ st, match ws st with
        | Some _ => emit e st
        | None => (Throw (TypeError ("Cannot read properties of undefined (reading '"
                                       +:+ method +:+ "')")), st)
        end.

Definition ws_close : M := on_ws "close" WsClose.
Definition ws_reconnect : M := on_ws "reconnect" WsReconnect.

Definition ws_addEventListener (name : string) : M :=
  λ st, match ws st with
        | Some s => (Normal, {| ws := Some {| listeners := listeners s ++ [name] |};
                                trace := trace st |})
        | None => (Throw (TypeError
                     "Cannot read properties of undefined (reading 'addEventListener')"), st)
        end.

Definition shutDown : M :=
  λ st, match ws st with
        | Some _ => seq ws_close (λ st, (Normal, {| ws := None; trace := trace st |})) st
        | None => (Normal, st)
        end.

Definition init : M :=
  shutDown >>
  (λ st, (Normal, {| ws := Some {| listeners := [] |};
                     trace := trace st ++ [NewReconnectingWebSocket "wss://ws.prices.tf"] |})) >>
  ws_addEventListener "open" >>
  ws_addEventListener "error" >>
  ws_addEventListener "close".

Definition connect : M := ws_reconnect.

Definition on (name : string) : M := ws_addEventListener name.

(** The listeners registered by [init]. *)
Definition socketConnect : M := emit (LogDebug "Connected to socket server").
Definition socketDisconnected : M := emit (LogDebug "Disconnected from socket server").

(** [this.socketUnauthorized()] builds a function and drops it: nothing is
    logged. *)
Definition socketUnauthorized : M := skip.

(** The continuation of [this.api.setupToken()], once the promise has
    settled as [token]: [.then(() => this.ws.reconnect())] and the [.catch]
    behind it, which also sees what the [.then] callback throws. *)
Definition after_setupToken (token : Promise unit) : M :=
  let catch (e : JsError) : M :=
    ws_reconnect >>
    socketUnauthorized >>
    emit (LoggerError "Error in prices.tf socket manager" (OfRejection e)) in
  match token with
  | Resolved _ =>
      λ st, match ws_reconnect st with
            | (Normal, st') => (Normal, st')
            | (Throw e, st') => catch e st'
            end
  | Rejected e => catch e
  | Pending => skip
  end.

(** The listener of ['error'], for an event with message [message];
    [token] is the way the promise of [setupToken()] settles, if that call
    is made. *)
Definition on_error (message : string) (token : Promise unit) : M :=
  ws_close >>
  if String.eqb message "Unexpected server response: 401"
  then emit ApiSetupToken >> after_setupToken token
  else emit (LoggerError "Error in prices.tf socket manager" (OfEvent message)).

Definition unauthorized : string := "Unexpected server response: 401".

Definition token_refreshes (t : list Event) : nat :=
  length (filter (λ ev, ev = ApiSetupToken) t).

End PricesTfSocketManager.

(** ** What is observed of a run *)

Module Observations.
Import Bans.

Definition requests (e : Endpoint) (t : list Event) : nat :=
  length (filter (λ ev, ev = Request e) t).

Definition calls (m : Method) (t : list Event) : nat :=
  length (filter (λ ev, ev = Invoke m) t).

(** The summary text of a steamrep.com answer, when there is one. *)
Definition summary_text (data : SteamRep) : option string :=
  reputation (steamrep data) ≫= summary.

Definition rejection {A} (p : Promise A) : option JsError :=
  match p with Rejected err => Some err | _ => None end.

(** The rejection reasons of the four promises, in array order. *)
Definition rejections (sl : Slots) : list (option JsError) :=
  [ rejection (outcome (untrusted_slot sl)); rejection (outcome (mptf_slot sl));
    rejection (outcome (steamrep_slot sl)); rejection (outcome (bptf_slot sl)) ].

Definition first_rejection (l : list (option JsError)) : option JsError :=
  foldr (λ o rest, match o with Some err => Some err | None => rest end) None l.

(** The four fallback promises of an [isBanned()] call started in [st]. *)
Definition fallback_checks (self : Self) (net : Network)
    (arrival : list Site) (st : State) : Slots :=
  fst (fan_out self net arrival (snd (resultsFromAutobot net st))).

Definition flag (r : R) : bool :=
  match r with Some r => SiteResult.isBanned r | None => false end.

Definition banned_content (entry : option SiteEntry) : option (option string) :=
  match entry with
  | Some (Entry r) => if SiteResult.isBanned r then Some (SiteResult.content r) else None
  | _ => None
  end.

(** One step of the [reduce] callback. *)
Definition keep_banned (contents : gmap string SiteEntry)
    (obj : Contents) (site : string) : Contents :=
  match contents !! site with
  | Some (Entry r) =>
      if SiteResult.isBanned r then <[site := SiteResult.content r]> obj else obj
  | _ => obj
  end.

(** All four fallback checks resolved [undefined]. *)
Definition all_undefined (sl : Slots) : Prop :=
  outcome (untrusted_slot sl) = Resolved None ∧
  outcome (mptf_slot sl) = Resolved None ∧
  outcome (steamrep_slot sl) = Resolved None ∧
  outcome (bptf_slot sl) = Resolved None.

(** Events that belong to the fallback: a per-site check is called, or one
    of its endpoints is requested. *)
Definition is_fallback_event (ev : Event) : bool :=
  match ev with
  | Invoke ResultsFromAutobot | Request RepAutobotTfJson | Log _ _ => false
  | Invoke _ | Request _ => true
  end.

End Observations.

(** ** Concrete inputs *)

Module Scenarios.
Import Bans.

(** Some instances and networks used as concrete inputs. *)
Definition subject : string := "76561198012345678".

Definition bot_all_checks : Self :=
  {| options := {| checkMptfBanned := true;
                   mptfApiKey := Some "mptf-key";
                   bptfApiKey := Some "bptf-key" |};
     userID := None; steamID := subject; showLog := Some ShowAll |}.

Definition offline (err : JsError) : Network :=
  {| rep_autobot_tf := Failure err;
     github_untrusted := λ _, Failure err;
     marketplace_tf := Failure err;
     steamrep_com := Failure err;
     backpack_tf := Failure err |}.

Definition start_state : State := {| cache := fresh; trace := [] |}.

Definition someone_else : list MptfResult :=
  [ {| steamid := "76561198000000001"; banned := Some true;
       ban := Some {| type := "scam" |} |} ].

Definition marketplace_without_subject : Network :=
  {| rep_autobot_tf := Failure (AxiosError "Network Error");
     github_untrusted := λ _, Failure (AxiosError "Network Error");
     marketplace_tf := Response (Some {| results := Some someone_else |});
     steamrep_com := Failure (AxiosError "Network Error");
     backpack_tf := Failure (AxiosError "Network Error") |}.

(** A steamrep.com answer that carries no [reputation] object. *)
Definition steamrep_no_reputation : SteamRep :=
  {| steamrep := {| reputation := None |} |}.

Definition steamrep_answers (data : SteamRep) : Network :=
  {| rep_autobot_tf := Failure (AxiosError "Network Error");
     github_untrusted := λ _, Failure (AxiosError "Network Error");
     marketplace_tf := Failure (AxiosError "Network Error");
     steamrep_com := Response data;
     backpack_tf := Failure (AxiosError "Network Error") |}.

(** The first request fails with [first_failure], the second with
    [second_failure]. *)
Definition untrusted_fails (first_failure second_failure : JsError) : Network :=
  {| rep_autobot_tf := Failure (AxiosError "Network Error");
     github_untrusted := λ attempt,
       match attempt with
       | first => Failure first_failure
       | retry => Failure second_failure
       end;
     marketplace_tf := Failure (AxiosError "Network Error");
     steamrep_com := Failure (AxiosError "Network Error");
     backpack_tf := Failure (AxiosError "Network Error") |}.

Definition network_error : JsError := AxiosError "Network Error".

Definition every_site : list Site := [Untrusted; Mptf; SteamRepCom; Bptf].

(** The subject was found on the untrusted list by an earlier call. *)
Definition seen_untrusted : State :=
  {| cache := set_isCommunityBanned true fresh; trace := [] |}.

(** Marketplace check enabled, API key left empty. *)
Definition bot_empty_mptf_key : Self :=
  {| options := {| checkMptfBanned := true;
                   mptfApiKey := Some "";
                   bptfApiKey := Some "bptf-key" |};
     userID := None; steamID := subject; showLog := Some ShowAll |}.

(** backpack.tf knows the subject as banned; nothing else answers. *)
Definition only_backpack_answers : Network :=
  {| rep_autobot_tf := Failure network_error;
     github_untrusted := λ _, Failure network_error;
     marketplace_tf := Failure network_error;
     steamrep_com := Failure network_error;
     backpack_tf :=
       Response {| users :=
         {[ subject := {| bans := Some {| all := Some {| ban_reason := Some "scamming" |};
                                          all_features := None;
                                          steamrep_scammer := None |} |} ]} |} |}.

Definition autobot_answer : RepAutobotTf.t :=
  RepAutobotTf.mk true
    {[ "TF2Autobot" := Entry (SiteResult.mk false (Some ""));
       "Marketplace.tf" := Entry (SiteResult.mk true (Some "scam"));
       "Backpack.tf" := EntryError;
       "Steamrep.com" := EntryNull ]}
    false.

Definition autobot_answers (data : RepAutobotTf.t) : Network :=
  {| rep_autobot_tf := Response data;
     github_untrusted := λ _, Failure network_error;
     marketplace_tf := Failure network_error;
     steamrep_com := Failure network_error;
     backpack_tf := Failure network_error |}.

Definition backpack_verdict : ResultSources.t :=
  ResultSources.mk (Some (SiteResult.mk true (Some "scamming"))) None None None.

Definition offer_example : GetDiff.TradeOffer :=
  {| GetDiff.data := λ key,
       if String.eqb key "dict"
       then Some {| GetDiff.our := {[ "5021;6" := 3; "5002;6" := 1 ]};
                    GetDiff.their := {[ "5002;6" := 4; "5000;6" := 2 ]} |}
       else None |}.

Definition connected : PricesTfSocketManager.State :=
  {| PricesTfSocketManager.ws :=
       Some {| PricesTfSocketManager.listeners := ["open"; "error"; "close"] |};
     PricesTfSocketManager.trace := [] |}.

End Scenarios.

(** ** The exported function [isBptfBanned]

    The function exported beside the class: the same request as the method
    of the class, without instance and cache. *)

Module Exported.
Import Bans.

Section Function.
(** [filterAxiosError] comes from the package [@tf2autobot/filter-axios-error];
    it is taken as given. *)
Variable filterAxiosError : JsError → JsError.
Variable backpack_tf : Fetch BPTFGetUserInfo.

Definition isBptfBanned_catch (showLog : bool) (err : JsError) : M (Promise SiteResult.t) :=
  when showLog (emit (Log warn "Failed to get data from backpack.tf"));;
  mret (Rejected (filterAxiosError err)).

Definition isBptfBanned (steamID bptfApiKey userID : string) (showLog : bool)
    : M (Promise SiteResult.t) :=
  emit (Request BackpackTfUsersInfo);;
  match backpack_tf with
  | Response data =>
      match users data !! steamID with
      | None =>
          isBptfBanned_catch showLog
            (TypeError "Cannot read properties of undefined (reading 'bans')")
      | Some user =>
          let isBptfBanned :=
            match bans user with
            | Some b => bool_decide (is_Some (all b)) || bool_decide (is_Some (all_features b))
            | None => false
            end in
          let banReason :=
            match bans user with
            | Some b => nullish (all b ≫= ban_reason)
                                (nullish (all_features b ≫= ban_reason) "")
            | None => ""
            end in
          mret (Resolved (SiteResult.mk isBptfBanned (Some banReason)))
      end
  | Failure err => isBptfBanned_catch showLog err
  end.

End Function.

End Exported.

(** ** [invalid]: the message for an offer whose items were traded away *)

Module Invalid.

(** Modelled from the spec: [Bot], its options and [TradeOffer] are declared
    outside the sources at hand ("an offer object exposing ... a partner
    identifier, a messaging sender"); these are the fields the function
    reads.  [tradedAway = None] is [undefined]. *)
Record CustomMessage : Type := { tradedAway : option string }.
Record Options : Type := { customMessage : CustomMessage }.
Record Bot : Type := { options : Options }.
Record TradeOffer : Type := { partner : string }.

(** [bot.sendMessage(steamID, message)] *)
Inductive Event : Type :=
| SendMessage (steamID : string) (message : string).

Definition default_message : string :=
  "/pre ❌ Ohh nooooes! Your offer is no longer available. Reason: Items not available (traded away in a different trade).".

(** The messages sent so far are the state. *)
Definition invalid (offer : TradeOffer) (bot : Bot) (sent : list Event) : list Event :=
  sent ++
  [SendMessage (partner offer)
     (if Bans.truthy_string (tradedAway (customMessage (options bot)))
      then nullish (tradedAway (customMessage (options bot))) ""
      else default_message)].

End Invalid.

(** ** Further notions used in the statements *)

Module Notions.
Import Bans.




(** The socket events of one kind in a trace. *)
Definition occurrences (e : PricesTfSocketManager.Event)
    (t : list PricesTfSocketManager.Event) : nat :=
  length (filter (λ ev, ev = e) t).

(** A promise that has settled. *)
Definition settled {A} (p : Promise A) : Prop := p ≠ Pending.

(** The text of a per-site detail says that the site reported a ban. *)
Definition reports_ban (text : option string) : Prop := text ≠ Some "clean".

(** The promise of one site among the four. *)
Definition slot_of (site : Site) (sl : Slots) : Slot :=
  match site with
  | Untrusted => untrusted_slot sl
  | Mptf => mptf_slot sl
  | SteamRepCom => steamrep_slot sl
  | Bptf => bptf_slot sl
  end.

Global Instance Site_eq_dec : EqDecision Site.
Proof. solve_decision. Defined.

(** A promise that has been settled, and not as "never settles". *)
Definition answered (s : Slot) : Prop := ∃ p, s = Settled p ∧ p ≠ Pending.

(** The requests to [e] that the pending promises may still cause: the
    untrusted list may be asked once more. *)
Definition owed (e : Endpoint) (sl : Slots) : nat :=
  match e, untrusted_slot sl with
  | GithubUntrustedJson, Awaiting => 1
  | _, _ => 0
  end.

(** The most requests one [isBanned()] call may send to [e]. *)
Definition most_requests (e : Endpoint) : nat :=
  match e with
  | GithubUntrustedJson => 2
  | _ => 1
  end.

(** The detail that [finalize] writes for the result of one site. *)
Definition detail (r : R) : option (option string) :=
  match r with
  | Some r => Some (Some (describe r))
  | None => None
  end.

End Notions.

(** ** Further concrete inputs *)

Module Cases.
Import Bans Scenarios.

Definition banned_account : MptfResult :=
  {| steamid := subject; banned := Some true; ban := Some {| type := "fraud" |} |}.

(** Another account first, then the subject twice. *)
Definition marketplace_lists_subject : Network :=
  {| rep_autobot_tf := Failure network_error;
     github_untrusted := λ _, Failure network_error;
     marketplace_tf :=
       Response (Some {| results := Some (someone_else ++
         [banned_account; {| steamid := subject; banned := None; ban := None |}]) |});
     steamrep_com := Failure network_error;
     backpack_tf := Failure network_error |}.

Definition marketplace_malformed : Network :=
  {| rep_autobot_tf := Failure network_error;
     github_untrusted := λ _, Failure network_error;
     marketplace_tf := Response (Some {| results := None |});
     steamrep_com := Failure network_error;
     backpack_tf := Failure network_error |}.

Definition untrusted_list : UntrustedJson :=
  {| steamids := {[ subject := {| reason := "scam"; source := "forum" |} ]} |}.

Definition untrusted_answers (data : UntrustedJson) : Network :=
  {| rep_autobot_tf := Failure network_error;
     github_untrusted := λ _, Response data;
     marketplace_tf := Failure network_error;
     steamrep_com := Failure network_error;
     backpack_tf := Failure network_error |}.

Definition steamrep_scammer_answer : SteamRep :=
  {| steamrep := {| reputation :=
       Some {| full := Some "SR SCAMMER"; summary := Some "SCAMMER" |} |} |}.

Definition backpack_user : BptfUser :=
  {| bans := Some {| all := None;
                     all_features := Some {| ban_reason := Some "fraud" |};
                     steamrep_scammer := Some 1 |} |}.

Definition backpack_data : BPTFGetUserInfo := {| users := {[ subject := backpack_user ]} |}.

(** backpack.tf answers, steamrep.com is down. *)
Definition backpack_up_steamrep_down : Network :=
  {| rep_autobot_tf := Failure network_error;
     github_untrusted := λ _, Failure network_error;
     marketplace_tf := Failure network_error;
     steamrep_com := Failure network_error;
     backpack_tf := Response backpack_data |}.

Definition bot_without_keys : Self :=
  {| options := {| checkMptfBanned := false; mptfApiKey := None; bptfApiKey := Some "" |};
     userID := None; steamID := subject; showLog := None |}.

Definition steamrep_flag_known : State :=
  {| cache := set_isBptfSteamRepBanned true fresh; trace := [] |}.

Definition no_socket : PricesTfSocketManager.State :=
  {| PricesTfSocketManager.ws := None; PricesTfSocketManager.trace := [] |}.

Definition quiet_bot : Invalid.Bot :=
  {| Invalid.options := {| Invalid.customMessage := {| Invalid.tradedAway := Some "" |} |} |}.

Definition custom_bot : Invalid.Bot :=
  {| Invalid.options :=
       {| Invalid.customMessage := {| Invalid.tradedAway := Some "Sorry, already sold." |} |} |}.

Definition some_offer : Invalid.TradeOffer := {| Invalid.partner := subject |}.



End Cases.

(** * Properties *)

(** ** Properties of [getDiff] *)

Module GetDiffProofs.
Import GetDiff Scenarios.


(** One pass of a loop [diff[k] = (diff[k] || 0) ± v] over entries with
    pairwise distinct keys. *)
Lemma foldl_step_lookup (op : Z → Z → Z) (l : list (string * Z)) :
  NoDup l.*1 →
  ∀ (acc : gmap string Z) (k : string),
    foldl (λ d e, <[e.1 := op (or_zero (d !! e.1)) e.2]> d) acc l !! k =
    match (list_to_map l : gmap string Z) !! k with
    | Some v => Some (op (or_zero (acc !! k)) v)
    | None => acc !! k
    end.
Proof.
  induction l as [|[j v] l IH]; intros Hnd acc k; simpl.
  - by rewrite lookup_empty.
  - apply NoDup_cons in Hnd as [Hj Hnd].
    rewrite (IH Hnd). destruct (decide (j = k)) as [->|Hne].
    + rewrite lookup_insert_eq.
      rewrite (not_elem_of_list_to_map_1 (M:=gmap string) l k Hj).
      by rewrite lookup_insert_eq.
    + rewrite !lookup_insert_ne by done. done.
Qed.

Lemma for_in_lookup (op : Z → Z → Z) (o acc : gmap string Z) (k : string) :
  for_in o (λ d e, <[e.1 := op (or_zero (d !! e.1)) e.2]> d) acc !! k =
  match o !! k with
  | Some v => Some (op (or_zero (acc !! k)) v)
  | None => acc !! k
  end.
Proof.
  unfold for_in. rewrite foldl_step_lookup by apply NoDup_fst_map_to_list.
  by rewrite list_to_map_to_list.
Qed.

(** The order in which a loop visits the entries does not matter. *)
Lemma loop_any_order (op : Z → Z → Z) (o acc : gmap string Z) (l : list (string * Z)) :
  l ≡ₚ map_to_list o →
  foldl (λ d e, <[e.1 := op (or_zero (d !! e.1)) e.2]> d) acc l =
  for_in o (λ d e, <[e.1 := op (or_zero (d !! e.1)) e.2]> d) acc.
Proof.
  intros Hperm. apply map_eq. intros k.
  rewrite for_in_lookup, foldl_step_lookup.
  - assert ((list_to_map l : gmap string Z) = o) as ->; [|done].
    rewrite <- (list_to_map_to_list o). apply list_to_map_proper; [|done].
    rewrite Hperm. apply NoDup_fst_map_to_list.
  - rewrite Hperm. apply NoDup_fst_map_to_list.
Qed.




End GetDiffProofs.

(** ** Properties of the string primitives *)

Module JSFacts.

Lemma app_nil_l (t : string) : "" +:+ t = t.
Proof. reflexivity. Qed.

Lemma app_cons (c : ascii) (s t : string) : String c s +:+ t = String c (s +:+ t).
Proof. reflexivity. Qed.

Lemma prefix_app (pat s : string) :
  String.prefix pat s = true ↔ ∃ post, s = pat +:+ post.
Proof.
  revert s. induction pat as [|c pat IH]; intros s.
  - split; [intros _; by exists s | by destruct s].
  - destruct s as [|d s]; simpl.
    + split; [done | intros [post H]; discriminate H].
    + setoid_rewrite app_cons.
      destruct (Ascii.ascii_dec c d) as [->|Hne].
      * rewrite IH. split; intros [post H]; exists post; congruence.
      * split; [done | intros [post H]; congruence].
Qed.

Lemma indexOf_from_eq (i : Z) (s pat : string) :
  indexOf_from i s pat =
  if String.prefix pat s then i
  else match s with
       | EmptyString => -1
       | String _ s' => indexOf_from (i + 1) s' pat
       end.
Proof. by destruct s. Qed.

Lemma indexOf_from_found (i : Z) (s pat : string) :
  indexOf_from i s pat ≠ -1 → includes s pat.
Proof.
  revert i. induction s as [|c s IH]; intros i; rewrite indexOf_from_eq.
  - destruct (String.prefix pat "") eqn:Hp; [|congruence].
    intros _. apply prefix_app in Hp as [post Hp]. by exists "", post.
  - destruct (String.prefix pat (String c s)) eqn:Hp.
    + intros _. apply prefix_app in Hp as [post Hp]. by exists "", post.
    + intros H. destruct (IH _ H) as (pre & post & ->).
      by exists (String c pre), post.
Qed.

Lemma indexOf_from_includes (i : Z) (s pat : string) :
  0 ≤ i → includes s pat → indexOf_from i s pat ≠ -1.
Proof.
  intros Hi (pre & post & ->). revert i Hi.
  induction pre as [|c pre IH]; intros i Hi; rewrite indexOf_from_eq.
  - assert (String.prefix pat ("" +:+ pat +:+ post) = true) as ->
      by (apply prefix_app; by exists post).
    lia.
  - rewrite app_cons. destruct (String.prefix pat _); [lia|]. apply IH. lia.
Qed.

(** [indexOf] finds the pattern exactly when it occurs. *)
Lemma indexOf_includes (s pat : string) :
  indexOf s pat ≠ -1 ↔ includes s pat.
Proof.
  split; [apply indexOf_from_found | by apply indexOf_from_includes].
Qed.

Lemma toLowerCase_app (s t : string) :
  toLowerCase (s +:+ t) = toLowerCase s +:+ toLowerCase t.
Proof.
  induction s as [|c s IH]; [done|].
  rewrite app_cons. simpl. by rewrite IH.
Qed.

Lemma toLowerCase_split (s u v : string) :
  toLowerCase s = u +:+ v →
  ∃ s1 s2, s = s1 +:+ s2 ∧ toLowerCase s1 = u ∧ toLowerCase s2 = v.
Proof.
  revert s. induction u as [|c u IH]; intros s H.
  - by exists "", s.
  - rewrite app_cons in H. destruct s as [|d s]; [discriminate H|]. simpl in H.
    injection H as Hc Hs. destruct (IH _ Hs) as (s1 & s2 & -> & H1 & H2).
    exists (String d s1), s2. simpl. by rewrite Hc, H1.
Qed.

Lemma includes_toLowerCase (s pat : string) :
  includes (toLowerCase s) (toLowerCase pat) ↔ includes_ignoring_case s pat.
Proof.
  split.
  - intros (u & v & H).
    apply toLowerCase_split in H as (pre & rest & -> & <- & H).
    apply toLowerCase_split in H as (mid & post & -> & Hmid & <-).
    by exists pre, mid, post.
  - intros (pre & mid & post & -> & H).
    exists (toLowerCase pre), (toLowerCase post).
    by rewrite !toLowerCase_app, H.
Qed.

End JSFacts.

(** ** Properties of the per-site checks *)

Module SiteChecks.
Import Bans JSFacts Observations Scenarios.

Ltac run :=
  repeat (unfold mbind, mret, M_bind, M_ret, when, emit, get_cache, update_cache in *;
          simpl in * ).

Section Checks.
Variable self : Self.
Variable net : Network.

(** *** marketplace.tf *)

Lemma mptf_scan_none (l : list MptfResult) :
  (∀ r, r ∈ l → steamid r ≠ steamID self) → mptf_scan (steamID self) l = None.
Proof.
  induction l as [|r l IH]; intros H; simpl; [done|].
  destruct (String.eqb_spec (steamID self) (steamid r)) as [Heq|_].
  - exfalso. apply (H r); [left | done].
  - apply IH. intros r' Hr'. apply H. by right.
Qed.

Lemma mptf_scan_some (l : list MptfResult) (r : MptfResult) :
  mptf_scan (steamID self) l = Some r → r ∈ l ∧ steamid r = steamID self.
Proof.
  induction l as [|r' l IH]; simpl; [done|].
  destruct (String.eqb_spec (steamID self) (steamid r')) as [Heq|_].
  - intros [= ->]. split; [left | done].
  - intros H. destruct (IH H). split; [by right | done].
Qed.

(** C10.  With the marketplace check enabled, an API key other than the
    empty string, and a well-formed [results] array without an entry for
    the subject, [isMptfBanned] resolves [{isBanned: false}] (checked,
    clean) and not [undefined], and leaves the cache, in particular
    [_isMptfBanned], as it was. *)
Theorem isMptfBanned_subject_absent (st : State) (l : list MptfResult) :
  checkMptfBanned (options self) = true →
  mptfApiKey (options self) ≠ Some "" →
  marketplace_tf net = Response (Some {| results := Some l |}) →
  (∀ r, r ∈ l → steamid r ≠ steamID self) →
  fst (isMptfBanned self net st) = Resolved (Some (SiteResult.mk false None)) ∧
  fst (isMptfBanned self net st) ≠ Resolved None ∧
  cache (snd (isMptfBanned self net st)) = cache st.
Proof.
  intros Hon Hkey Hnet Habsent.
  unfold isMptfBanned, run_check, isMptfBanned_start, isMptfBanned_response,
    isMptfBanned_then.
  rewrite Hon, Hnet. rewrite bool_decide_eq_false_2 by done. run.
  rewrite (mptf_scan_none l Habsent). by run.
Qed.

(** *** steamrep.com *)

(** With a summary in the answer, the verdict is the case-insensitive
    search for "scammer". *)
Lemma isSteamRepMarked_summary (st : State) (data : SteamRep) (s : string) :
  steamrep_com net = Response data →
  summary_text data = Some s →
  ∃ r, fst (isSteamRepMarked self net st) = Resolved (Some r) ∧
       (SiteResult.isBanned r = true ↔ includes_ignoring_case s "scammer").
Proof.
  intros Hnet Hs. unfold summary_text in Hs.
  unfold isSteamRepMarked, run_check, isSteamRepMarked_start,
    isSteamRepMarked_response, isSteamRepMarked_then.
  rewrite Hnet. destruct (reputation (steamrep data)) as [rep|]; [|done].
  simpl in Hs. rewrite Hs. run. eexists. split; [reflexivity|]. simpl.
  rewrite <- (includes_toLowerCase s "scammer").
  change (toLowerCase "scammer") with "scammer".
  rewrite <- indexOf_includes, negb_true_iff. apply Z.eqb_neq.
Qed.

(** *** the untrusted list *)

(** The second call never calls the method again. *)
Lemma isListedUntrusted_body_retry (f g : Attempt → M (Promise R)) (st : State) :
  isListedUntrusted_body self net f retry st = isListedUntrusted_body self net g retry st.
Proof.
  unfold isListedUntrusted_body, isListedUntrusted_response, isListedUntrusted_catch.
  run. destruct (github_untrusted net retry) as [data|err]; [done|].
  by rewrite andb_false_r.
Qed.

(** [isListedUntrusted] satisfies the recursive equation of the source. *)
Lemma isListedUntrusted_unfold (attempt : Attempt) (st : State) :
  isListedUntrusted self net attempt st =
  isListedUntrusted_body self net (isListedUntrusted self net) attempt st.
Proof.
  destruct attempt.
  - unfold isListedUntrusted at 1.
    unfold isListedUntrusted_body at 1 3, isListedUntrusted_response,
      isListedUntrusted_catch.
    run. destruct (github_untrusted net first) as [data|err]; [done|].
    destruct (instanceof_AbortSignal err); simpl; [|done].
    unfold isListedUntrusted.
    by rewrite (isListedUntrusted_body_retry _
                  (isListedUntrusted_body self net (λ _, mret Pending))).
  - apply isListedUntrusted_body_retry.
Qed.

(** The promise of the check is never rejected. *)
Lemma isListedUntrusted_never_rejects (attempt : Attempt) (st : State) (err : JsError) :
  fst (isListedUntrusted self net attempt st) ≠ Rejected err.
Proof.
  unfold isListedUntrusted, isListedUntrusted_body, isListedUntrusted_response,
    isListedUntrusted_catch, isListedUntrusted_then.
  run. destruct (github_untrusted net attempt) as [data|e1].
  - destruct (steamids data !! steamID self); by run.
  - destruct (instanceof_AbortSignal e1 && _); run; [|destruct logging; by run].
    destruct (github_untrusted net retry) as [data|e2].
    + destruct (steamids data !! steamID self); by run.
    + rewrite andb_false_r. destruct logging; by run.
Qed.

(** When the first request fails with a value that is an [AbortSignal],
    the list is requested a second time, and no third time; the promise
    of the first call is left unsettled whatever the second request
    gives. *)
Lemma isListedUntrusted_abort_signal (st : State) :
  github_untrusted net first = Failure AbortSignalValue →
  fst (isListedUntrusted self net first st) = Pending ∧
  ∃ new, trace (snd (isListedUntrusted self net first st)) = trace st ++ new ∧
         requests GithubUntrustedJson new = 2%nat ∧
         calls (IsListedUntrusted retry) new = 1%nat.
Proof.
  intros H1.
  unfold isListedUntrusted, isListedUntrusted_body, isListedUntrusted_response,
    isListedUntrusted_catch, isListedUntrusted_then.
  run. rewrite H1. run. destruct (github_untrusted net retry) as [data|e2].
  - destruct (steamids data !! steamID self); run; (split; [done|]);
      rewrite <- !app_assoc; by eexists.
  - rewrite andb_false_r. run. destruct logging; run; (split; [done|]);
      rewrite <- !app_assoc; by eexists.
Qed.

(** Any other failure of the first request is final: no second request. *)
Lemma isListedUntrusted_other_failure (st : State) (err : JsError) :
  github_untrusted net first = Failure err →
  instanceof_AbortSignal err = false →
  fst (isListedUntrusted self net first st) = Resolved None ∧
  ∃ new, trace (snd (isListedUntrusted self net first st)) = trace st ++ new ∧
         requests GithubUntrustedJson new = 1%nat ∧
         calls (IsListedUntrusted retry) new = 0%nat.
Proof.
  intros H1 Hna.
  unfold isListedUntrusted, isListedUntrusted_body, isListedUntrusted_response,
    isListedUntrusted_catch, isListedUntrusted_then.
  run. rewrite H1, Hna. run. destruct logging; run; (split; [done|]);
    rewrite <- !app_assoc; by eexists.
Qed.

End Checks.

Lemma isMptfBanned_subject_absent_witness :
  fst (isMptfBanned bot_all_checks marketplace_without_subject start_state)
    = Resolved (Some (SiteResult.mk false None)) ∧
  fst (isMptfBanned bot_all_checks marketplace_without_subject start_state)
    ≠ Resolved None ∧
  cache (snd (isMptfBanned bot_all_checks marketplace_without_subject start_state))
    = fresh.
Proof.
  apply (isMptfBanned_subject_absent bot_all_checks marketplace_without_subject
           start_state someone_else).
  - reflexivity.
  - discriminate.
  - reflexivity.
  - intros r Hr. apply list_elem_of_singleton in Hr as ->. discriminate.
Defined.

(** C4.  The verdict follows the summary text only when there is one (see
    [isSteamRepMarked_summary]).  For an answer without a [reputation]
    object the comparison is [undefined !== -1]: the check resolves
    [isBanned = true] although no summary text, and so no "scammer", was
    fetched. *)
Theorem isSteamRepMarked_without_reputation :
  summary_text steamrep_no_reputation = None ∧
  fst (isSteamRepMarked bot_all_checks (steamrep_answers steamrep_no_reputation) start_state)
    = Resolved (Some (SiteResult.mk true (Some ""))) ∧
  _isSteamRepBanned
    (cache (snd (isSteamRepMarked bot_all_checks (steamrep_answers steamrep_no_reputation)
                   start_state)))
    = Some true.
Proof. by vm_compute. Qed.

(** C3.  Two aborted first attempts.  When the request is cancelled the
    way [axios] cancels it ([CanceledError]) the check gives up at once:
    one request, no retry.  When the failure value is an [AbortSignal], the
    retry is made and fails, but the promise of the check stays pending: it
    does not resolve [undefined]. *)
Theorem isListedUntrusted_abort_outcomes :
  (fst (isListedUntrusted bot_all_checks (untrusted_fails CanceledError CanceledError)
          first start_state) = Resolved None ∧
   requests GithubUntrustedJson
     (trace (snd (isListedUntrusted bot_all_checks
                    (untrusted_fails CanceledError CanceledError) first start_state)))
     = 1%nat) ∧
  (fst (isListedUntrusted bot_all_checks (untrusted_fails AbortSignalValue CanceledError)
          first start_state) = Pending ∧
   requests GithubUntrustedJson
     (trace (snd (isListedUntrusted bot_all_checks
                    (untrusted_fails AbortSignalValue CanceledError) first start_state)))
     = 2%nat).
Proof. by vm_compute. Qed.

End SiteChecks.

(** ** Properties of the aggregator *)

Module Aggregator.
Import Bans Observations Scenarios SiteChecks.

Lemma Promise_all_rejected (sl : Slots) (err : JsError) :
  Promise_all sl = Rejected err ↔ first_rejection (rejections sl) = Some err.
Proof.
  unfold Promise_all, rejections.
  destruct (outcome (untrusted_slot sl)), (outcome (mptf_slot sl)),
    (outcome (steamrep_slot sl)), (outcome (bptf_slot sl));
    simpl; split; congruence.
Qed.

Lemma rejection_eq_of_iff {A} (p q : Promise A) :
  (∀ err, p = Rejected err ↔ q = Rejected err) → rejection p = rejection q.
Proof.
  intros H. destruct p as [a|e|], q as [b|e'|]; simpl; try done;
    try (destruct (H e) as [Hf _]; specialize (Hf eq_refl); congruence);
    try (destruct (H e') as [_ Hb]; specialize (Hb eq_refl); congruence).
Qed.

Section Facts.
Variable self : Self.
Variable net : Network.

(** *** No response handler rejects *)

Lemma isMptfBanned_response_rejection (st : State) :
  rejection (fst (isMptfBanned_response self net st)) = None.
Proof.
  unfold isMptfBanned_response, isMptfBanned_then, isMptfBanned_catch.
  destruct (marketplace_tf net) as [data|err].
  - destruct (data ≫= results) as [l|];
      [destruct (mptf_scan (steamID self) l)|]; by run.
  - run. by destruct logging.
Qed.

Lemma isSteamRepMarked_catch_rejection (err : JsError) (st : State) :
  rejection (fst (isSteamRepMarked_catch self err st)) = None.
Proof.
  unfold isSteamRepMarked_catch. run.
  by destruct logging; run; destruct (_isBptfSteamRepBanned (cache st)).
Qed.

Lemma isSteamRepMarked_response_rejection (st : State) :
  rejection (fst (isSteamRepMarked_response self net st)) = None.
Proof.
  unfold isSteamRepMarked_response, isSteamRepMarked_then.
  destruct (steamrep_com net) as [data|err];
    [|apply isSteamRepMarked_catch_rejection].
  destruct (reputation (steamrep data)) as [rep|]; [|done].
  destruct (summary rep); [done | apply isSteamRepMarked_catch_rejection].
Qed.

Lemma isBptfBanned_response_rejection (st : State) :
  rejection (fst (isBptfBanned_response self net st)) = None.
Proof.
  unfold isBptfBanned_response, isBptfBanned_then, isBptfBanned_catch.
  destruct (backpack_tf net) as [data|err]; run.
  - destruct (users data !! steamID self); run; [done | by destruct logging].
  - by destruct logging.
Qed.

Lemma isListedUntrusted_response_rejection (st : State) :
  rejection (fst (isListedUntrusted_response self net
                    (isListedUntrusted self net) first st)) = None.
Proof.
  unfold isListedUntrusted_response, isListedUntrusted_then, isListedUntrusted_catch.
  destruct (github_untrusted net first) as [data|err]; run.
  - by destruct (steamids data !! steamID self).
  - destruct (instanceof_AbortSignal err); run.
    + by destruct (isListedUntrusted self net retry st).
    + by destruct logging.
Qed.

(** *** Delivering responses neither adds nor removes a rejection *)

Lemma settle_rejection (s : Slot) (response : M (Promise R)) (st : State) :
  (∀ st', rejection (fst (response st')) = None) →
  rejection (outcome (fst (settle s response st))) = rejection (outcome s).
Proof.
  intros H. destruct s as [|p]; [|done]. unfold settle. run.
  specialize (H st). by destruct (response st).
Qed.

Lemma deliver_rejections (sl : Slots) (site : Site) (st : State) :
  rejections (fst (deliver self net sl site st)) = rejections sl.
Proof.
  unfold rejections.
  destruct site; unfold deliver; run.
  - pose proof (settle_rejection (untrusted_slot sl) _ st
                  isListedUntrusted_response_rejection) as H.
    destruct (settle _ _ st); simpl in *. by rewrite H.
  - pose proof (settle_rejection (mptf_slot sl) _ st
                  isMptfBanned_response_rejection) as H.
    destruct (settle _ _ st); simpl in *. by rewrite H.
  - pose proof (settle_rejection (steamrep_slot sl) _ st
                  isSteamRepMarked_response_rejection) as H.
    destruct (settle _ _ st); simpl in *. by rewrite H.
  - pose proof (settle_rejection (bptf_slot sl) _ st
                  isBptfBanned_response_rejection) as H.
    destruct (settle _ _ st); simpl in *. by rewrite H.
Qed.

Lemma deliver_all_rejections (arrival : list Site) (sl : Slots) (st : State) :
  rejections (fst (deliver_all self net arrival sl st)) = rejections sl.
Proof.
  revert sl st. induction arrival as [|site rest IH]; intros sl st; [done|].
  simpl. run. pose proof (deliver_rejections sl site st) as H.
  destruct (deliver self net sl site st) as [sl' st']. simpl in H.
  by rewrite IH.
Qed.

Lemma deliver_all_rejected (arrival : list Site) (sl : Slots) (st : State) (err : JsError) :
  Promise_all (fst (deliver_all self net arrival sl st)) = Rejected err ↔
  Promise_all sl = Rejected err.
Proof. by rewrite !Promise_all_rejected, deliver_all_rejections. Qed.

Lemma deliver_all_rejection (arrival : list Site) (sl : Slots) (st : State) :
  rejection (Promise_all (fst (deliver_all self net arrival sl st))) =
  rejection (Promise_all sl).
Proof. apply rejection_eq_of_iff. intros err. apply deliver_all_rejected. Qed.

(** *** The calls themselves *)

Lemma resultsFromAutobot_cache (st : State) :
  cache (snd (resultsFromAutobot net st)) = cache st.
Proof. done. Qed.

Lemma start_all_cache (st : State) : cache (snd (start_all self st)) = cache st.
Proof.
  unfold start_all, isListedUntrusted_start, isMptfBanned_start,
    isSteamRepMarked_start, isBptfBanned_start. run.
  destruct (checkMptfBanned (options self)); run;
    [destruct (bool_decide _); run|];
    by destruct (truthy_string (bptfApiKey (options self))).
Qed.

(** The only promise that can be rejected is the marketplace one, and it
    is rejected when it is created: check enabled, API key [''] . *)
Lemma start_all_rejected (st : State) (err : JsError) :
  Promise_all (fst (start_all self st)) = Rejected err ↔
  checkMptfBanned (options self) = true ∧
  mptfApiKey (options self) = Some "" ∧
  err = Error "Marketplace.tf API key was not set.".
Proof.
  unfold start_all, isListedUntrusted_start, isMptfBanned_start,
    isSteamRepMarked_start, isBptfBanned_start. run.
  destruct (checkMptfBanned (options self)); run;
    [case_bool_decide as Hkey; run|];
    destruct (truthy_string (bptfApiKey (options self))); run;
    unfold Promise_all; simpl;
    (split;
     [ intros H; try discriminate H; injection H as <-; by repeat split
     | intros (H1 & H2 & ->); congruence ]).
Qed.

(** *** What the fallback returns

    The whole fallback is a function of the way [Promise.all] settles and,
    when it is rejected, of the cache the call started with. *)

Lemma fallback_result (arrival : list Site) (st : State) :
  fst (fallback self net arrival st) =
  match Promise_all (fst (fan_out self net arrival st)) with
  | Resolved results => Resolved (merged self results)
  | Rejected err =>
      if any_cached_flag self (cache st)
      then Rejected err
      else Resolved (IsBanned.mk false None)
  | Pending => Pending
  end.
Proof.
  unfold fallback, fan_out. run.
  pose proof (start_all_cache st) as Hcache.
  destruct (start_all self st) as [sl0 st1]. simpl in Hcache.
  pose proof (deliver_all_rejection arrival sl0 st1) as Hrej.
  unfold catch_all, finalize.
  destruct (Promise_all sl0) as [results0|err0|]; simpl in Hrej; run.
  - destruct (deliver_all self net arrival sl0 st1) as [sl st2]; simpl in *.
    destruct (Promise_all sl) as [results|err|]; try discriminate Hrej; [|done].
    by destruct (logIsBanned self (merged self results) st2).
  - rewrite Hcache.
    destruct (any_cached_flag self (cache st)); simpl;
      destruct (deliver_all self net arrival sl0 st1) as [sl st2]; simpl in *;
      destruct (Promise_all sl) as [results|err|]; try discriminate Hrej;
      by injection Hrej as ->.
  - destruct (deliver_all self net arrival sl0 st1) as [sl st2]; simpl in *.
    destruct (Promise_all sl) as [results|err|]; try discriminate Hrej; [|done].
    by destruct (logIsBanned self (merged self results) st2).
Qed.

Lemma isBanned_fallback (arrival : list Site) (st : State) (err0 : JsError) :
  rep_autobot_tf net = Failure err0 →
  fst (isBanned self net arrival st) =
  match Promise_all (fallback_checks self net arrival st) with
  | Resolved results => Resolved (merged self results)
  | Rejected err =>
      if any_cached_flag self (cache st)
      then Rejected err
      else Resolved (IsBanned.mk false None)
  | Pending => Pending
  end.
Proof.
  intros Hnet. unfold fallback_checks.
  rewrite <- (resultsFromAutobot_cache st), <- fallback_result.
  unfold isBanned, resultsFromAutobot. run. by rewrite Hnet.
Qed.

Lemma fallback_checks_rejected (arrival : list Site) (st : State) (err : JsError) :
  Promise_all (fallback_checks self net arrival st) = Rejected err ↔
  checkMptfBanned (options self) = true ∧
  mptfApiKey (options self) = Some "" ∧
  err = Error "Marketplace.tf API key was not set.".
Proof.
  rewrite <- (start_all_rejected (snd (resultsFromAutobot net st))).
  unfold fallback_checks, fan_out. run.
  destruct (start_all self _) as [sl0 st1]. apply deliver_all_rejected.
Qed.

(** *** The merge *)

Lemma merged_isBanned (results : ResultSources.t) :
  validResults results ≠ [] →
  IsBanned.isBanned (merged self results) =
    flag (ResultSources.bptf results) || flag (ResultSources.mptf results) ||
    flag (ResultSources.steamrep results) || flag (ResultSources.untrusted results).
Proof.
  unfold merged, validResults.
  destruct results as [[b|] [m|] [s|] [u|]]; simpl; intros H;
    rewrite ?orb_false_r; try done; by rewrite ?orb_assoc.
Qed.

Lemma merged_none :
  merged self (ResultSources.mk None None None None) = default_result.
Proof. done. Qed.

Lemma merged_has_contents (results : ResultSources.t) :
  is_Some (IsBanned.contents (merged self results)).
Proof. unfold merged. by case_bool_decide. Qed.

(** *** The answer of rep.autobot.tf *)

Lemma keep_banned_lookup (contents : gmap string SiteEntry)
    (obj : Contents) (k site : string) :
  keep_banned contents obj k !! site =
  if decide (k = site)
  then match banned_content (contents !! site) with
       | Some c => Some c
       | None => obj !! site
       end
  else obj !! site.
Proof.
  unfold keep_banned, banned_content. case_decide as Hk.
  - subst k. destruct (contents !! site) as [[| |r]|]; try done.
    destruct (SiteResult.isBanned r); [|done]. by rewrite lookup_insert_eq.
  - destruct (contents !! k) as [[| |r]|]; try done.
    destruct (SiteResult.isBanned r); [|done]. by rewrite lookup_insert_ne.
Qed.

Lemma reduce_lookup (contents : gmap string SiteEntry) (keys : list string)
    (obj : Contents) (site : string) :
  foldl (keep_banned contents) obj keys !! site =
  if decide (site ∈ keys)
  then match banned_content (contents !! site) with
       | Some c => Some c
       | None => obj !! site
       end
  else obj !! site.
Proof.
  revert obj. induction keys as [|k keys IH]; intros obj; cbn [foldl].
  - by rewrite decide_False by apply not_elem_of_nil.
  - rewrite IH, keep_banned_lookup.
    destruct (decide (site ∈ keys)) as [Hin|Hout];
      destruct (decide (k = site)) as [->|Hne].
    + rewrite decide_True by by left.
      by destruct (banned_content (contents !! site)).
    + rewrite decide_True by by right. done.
    + rewrite decide_True by by left. done.
    + rewrite decide_False; [done|]. intros [?|?]%elem_of_cons; congruence.
Qed.

Lemma from_autobot_contents_lookup (contents : gmap string SiteEntry) (site : string) :
  from_autobot_contents contents !! site = banned_content (contents !! site).
Proof.
  unfold from_autobot_contents.
  change (foldl _ ∅ (Object_keys contents)) with
    (foldl (keep_banned contents) ∅ (Object_keys contents)).
  rewrite reduce_lookup, lookup_empty.
  unfold Object_keys. destruct (decide (site ∈ (map_to_list contents).*1)) as [Hin|Hout].
  - by destruct (banned_content (contents !! site)).
  - assert (contents !! site = None) as ->; [|done].
    apply eq_None_not_Some. intros [e He]. apply Hout.
    apply list_elem_of_fmap. exists (site, e). split; [done|].
    by apply elem_of_map_to_list.
Qed.

End Facts.

Lemma all_undefined_Promise_all (sl : Slots) :
  all_undefined sl → Promise_all sl = Resolved (ResultSources.mk None None None None).
Proof. intros (Hu & Hm & Hs & Hb). unfold Promise_all. by rewrite Hu, Hm, Hs, Hb. Qed.

(** *** Concrete invocations *)

(** *** The claims *)

(** C1, as stated, fails: with rep.autobot.tf down, the four checks
    resolving [undefined] and an empty cache, the call resolves with the
    deny-by-default result, not with [{isBanned: false}]. *)
Lemma isBanned_all_undefined_is_not_clean :
  rep_autobot_tf (offline network_error) = Failure network_error ∧
  all_undefined (fallback_checks bot_all_checks (offline network_error)
                   every_site start_state) ∧
  any_cached_flag bot_all_checks (cache start_state) = false ∧
  fst (isBanned bot_all_checks (offline network_error) every_site start_state)
    ≠ Resolved (IsBanned.mk false None).
Proof.
  split; [reflexivity|]. split; [by vm_compute|]. split; [reflexivity|].
  rewrite (isBanned_fallback _ _ _ _ network_error) by reflexivity.
  intros H. vm_compute in H. discriminate H.
Qed.

(** C1 (amended).  When rep.autobot.tf fails and all four fallback checks
    resolve [undefined], [isBanned()] resolves with the deny-by-default
    result ([isBanned = true] and the single ["default-rule"] detail),
    whatever the cache holds.  It resolves [{isBanned: false}] without
    detail exactly when the marketplace check is enabled with an empty API
    key (so that [Promise.all] is rejected) and no cached flag is true. *)
Theorem isBanned_deny_by_default
    (self : Self) (net : Network) (arrival : list Site) (st : State) (err0 : JsError) :
  rep_autobot_tf net = Failure err0 →
  (all_undefined (fallback_checks self net arrival st) →
     fst (isBanned self net arrival st) = Resolved default_result) ∧
  (fst (isBanned self net arrival st) = Resolved (IsBanned.mk false None) ↔
     checkMptfBanned (options self) = true ∧
     mptfApiKey (options self) = Some "" ∧
     any_cached_flag self (cache st) = false).
Proof.
  intros Hnet. rewrite (isBanned_fallback self net arrival st err0 Hnet). split.
  - intros Hall. by rewrite (all_undefined_Promise_all _ Hall).
  - pose proof (fallback_checks_rejected self net arrival st) as Hrej.
    destruct (Promise_all (fallback_checks self net arrival st)) as [results|err|].
    + split.
      * intros [= H]. destruct (merged_has_contents self results) as [c Hc].
        rewrite H in Hc. discriminate Hc.
      * intros (Hon & Hkey & _).
        destruct (Hrej (Error "Marketplace.tf API key was not set.")) as [_ Hb].
        discriminate Hb. done.
    + destruct (Hrej err) as [(Hon & Hkey & _) _]; [done|].
      destruct (any_cached_flag self (cache st)); split; try done.
      by intros (_ & _ & ?).
    + split; [done|]. intros (Hon & Hkey & _).
      destruct (Hrej (Error "Marketplace.tf API key was not set.")) as [_ Hb].
      discriminate Hb. done.
Qed.

Lemma isBanned_deny_by_default_witness :
  fst (isBanned bot_all_checks (offline network_error) every_site seen_untrusted)
    = Resolved default_result ∧
  fst (isBanned bot_empty_mptf_key (offline network_error) every_site start_state)
    = Resolved (IsBanned.mk false None).
Proof.
  split.
  - apply (isBanned_deny_by_default bot_all_checks (offline network_error)
             every_site seen_untrusted network_error eq_refl).
    by vm_compute.
  - apply (isBanned_deny_by_default bot_empty_mptf_key (offline network_error)
             every_site start_state network_error eq_refl).
    by vm_compute.
Defined.

(** C2, as stated, fails: every fallback check fails (resolves
    [undefined]) and a cached flag is true, yet the call does not reject. *)
Lemma isBanned_all_failed_does_not_reject :
  rep_autobot_tf (offline network_error) = Failure network_error ∧
  all_undefined (fallback_checks bot_all_checks (offline network_error)
                   every_site seen_untrusted) ∧
  any_cached_flag bot_all_checks (cache seen_untrusted) = true ∧
  ∀ err, fst (isBanned bot_all_checks (offline network_error) every_site seen_untrusted)
           ≠ Rejected err.
Proof.
  split; [reflexivity|]. split; [by vm_compute|]. split; [reflexivity|].
  intros err. rewrite (isBanned_fallback _ _ _ _ network_error) by reflexivity.
  intros H. vm_compute in H. discriminate H.
Qed.

(** C2 (amended).  When rep.autobot.tf fails, [isBanned()] rejects exactly
    when the marketplace check is enabled with an empty API key and at
    least one of the five cached flags is true; the error is the one of the
    marketplace check. *)
Theorem isBanned_rejects_iff
    (self : Self) (net : Network) (arrival : list Site) (st : State)
    (err0 err : JsError) :
  rep_autobot_tf net = Failure err0 →
  fst (isBanned self net arrival st) = Rejected err ↔
    checkMptfBanned (options self) = true ∧
    mptfApiKey (options self) = Some "" ∧
    any_cached_flag self (cache st) = true ∧
    err = Error "Marketplace.tf API key was not set.".
Proof.
  intros Hnet. rewrite (isBanned_fallback self net arrival st err0 Hnet).
  pose proof (fallback_checks_rejected self net arrival st) as Hrej.
  destruct (Promise_all (fallback_checks self net arrival st)) as [results|e|].
  - split; [done|]. intros (Hon & Hkey & _ & ->).
    destruct (Hrej (Error "Marketplace.tf API key was not set.")) as [_ Hb].
    discriminate Hb. done.
  - destruct (Hrej e) as [(Hon & Hkey & ->) _]; [done|].
    destruct (any_cached_flag self (cache st)); split.
    + by intros [= <-].
    + by intros (_ & _ & _ & ->).
    + done.
    + by intros (_ & _ & ? & _).
  - split; [done|]. intros (Hon & Hkey & _ & ->).
    destruct (Hrej (Error "Marketplace.tf API key was not set.")) as [_ Hb].
    discriminate Hb. done.
Qed.

Lemma isBanned_rejects_iff_witness :
  fst (isBanned bot_empty_mptf_key (offline network_error) every_site seen_untrusted)
    = Rejected (Error "Marketplace.tf API key was not set.").
Proof.
  apply (isBanned_rejects_iff bot_empty_mptf_key (offline network_error)
           every_site seen_untrusted network_error _ eq_refl).
  repeat split; reflexivity.
Defined.

(** C5.  When the call to rep.autobot.tf succeeds, [isBanned()] calls
    none of the four per-site checks and requests none of their endpoints:
    the call and the request of [resultsFromAutobot] are all it does, and
    the cache is left alone. *)
Theorem isBanned_primary_success_skips_fallback
    (self : Self) (net : Network) (arrival : list Site) (st : State)
    (data : RepAutobotTf.t) :
  rep_autobot_tf net = Response data →
  ∃ new, trace (snd (isBanned self net arrival st)) = trace st ++ new ∧
         Forall (λ ev, is_fallback_event ev = false) new ∧
         calls (IsListedUntrusted first) new = 0%nat ∧
         calls IsMptfBanned new = 0%nat ∧
         calls IsSteamRepMarked new = 0%nat ∧
         calls IsBptfBanned new = 0%nat ∧
         cache (snd (isBanned self net arrival st)) = cache st.
Proof.
  intros Hnet. exists [Invoke ResultsFromAutobot; Request RepAutobotTfJson].
  unfold isBanned, resultsFromAutobot. run. rewrite Hnet. simpl.
  rewrite <- app_assoc. repeat split; try done.
  by repeat constructor.
Qed.

Lemma isBanned_primary_success_skips_fallback_witness :
  ∃ new, trace (snd (isBanned bot_all_checks (autobot_answers autobot_answer)
                       every_site start_state)) = [] ++ new ∧
         Forall (λ ev, is_fallback_event ev = false) new ∧
         calls (IsListedUntrusted first) new = 0%nat ∧
         calls IsMptfBanned new = 0%nat ∧
         calls IsSteamRepMarked new = 0%nat ∧
         calls IsBptfBanned new = 0%nat ∧
         cache (snd (isBanned bot_all_checks (autobot_answers autobot_answer)
                       every_site start_state)) = fresh.
Proof.
  exact (isBanned_primary_success_skips_fallback bot_all_checks
           (autobot_answers autobot_answer) every_site start_state
           autobot_answer eq_refl).
Defined.

(** C6.  When the call to rep.autobot.tf succeeds, the returned [isBanned]
    is the answer's [isBanned] if the marketplace check is enabled and its
    [isBannedExcludeMptf] otherwise, and the returned [contents] has an
    entry exactly for the sites whose entry in the answer is a result (not
    ['Error'], not [null]) with [isBanned] true, holding that entry's
    [content]. *)
Theorem isBanned_primary_success_result
    (self : Self) (net : Network) (arrival : list Site) (st : State)
    (data : RepAutobotTf.t) :
  rep_autobot_tf net = Response data →
  ∃ result contents,
    fst (isBanned self net arrival st) = Resolved result ∧
    IsBanned.isBanned result =
      (if checkMptfBanned (options self)
       then RepAutobotTf.isBanned data
       else RepAutobotTf.isBannedExcludeMptf data) ∧
    IsBanned.contents result = Some contents ∧
    ∀ site,
      contents !! site =
      match RepAutobotTf.contents data !! site with
      | Some (Entry r) =>
          if SiteResult.isBanned r then Some (SiteResult.content r) else None
      | _ => None
      end.
Proof.
  intros Hnet. exists (from_autobot self data), (from_autobot_contents (RepAutobotTf.contents data)).
  split; [|split; [done|split; [done|]]].
  - unfold isBanned, resultsFromAutobot. run. by rewrite Hnet.
  - intros site. apply from_autobot_contents_lookup.
Qed.

Lemma isBanned_primary_success_result_witness :
  ∃ result contents,
    fst (isBanned bot_all_checks (autobot_answers autobot_answer) every_site start_state)
      = Resolved result ∧
    IsBanned.isBanned result = true ∧
    IsBanned.contents result = Some contents ∧
    contents !! "Marketplace.tf" = Some (Some "scam") ∧
    contents !! "TF2Autobot" = None ∧
    contents !! "Backpack.tf" = None ∧
    contents !! "Steamrep.com" = None.
Proof.
  destruct (isBanned_primary_success_result bot_all_checks
              (autobot_answers autobot_answer) every_site start_state
              autobot_answer eq_refl) as (result & contents & Hr & Hb & Hc & Hsites).
  exists result, contents. rewrite !Hsites. by repeat split.
Defined.



End Aggregator.

(** ** Properties of the socket manager *)

Module SocketProofs.
Import PricesTfSocketManager Scenarios.

Ltac run := unfold on_error, after_setupToken, ws_close, ws_reconnect, on_ws,
              socketUnauthorized, skip, seq, emit in *; simpl in *.

(** [shutDown] twice is [shutDown] once, and never throws. *)
Lemma shutDown_idempotent (st : State) :
  fst (shutDown st) = Normal ∧
  shutDown (snd (shutDown st)) = (Normal, snd (shutDown st)).
Proof. unfold shutDown. run. destruct (ws st) eqn:Hws; simpl; by rewrite ?Hws. Qed.

(** After [init] the socket exists and listens to the three events. *)
Lemma init_listeners (st : State) :
  fst (init st) = Normal ∧
  ws (snd (init st)) = Some {| listeners := ["open"; "error"; "close"] |}.
Proof.
  unfold init, shutDown, ws_addEventListener. run.
  destruct (ws st) eqn:Hws; simpl; by rewrite ?Hws.
Qed.

(** C9.  With a socket in place, an error event whose message is
    "Unexpected server response: 401" closes the connection, then calls
    [setupToken] exactly once, and reconnects only after that call: once
    when the refresh succeeds; once, followed by the log of the refresh
    error, when it fails.  An error event with any other message closes the
    connection, logs the event and refreshes no token. *)
Theorem on_error_token_refresh (st : State) (message : string) (token : Promise unit) :
  is_Some (ws st) →
  ∃ new,
    on_error message token st = (Normal, {| ws := ws st; trace := trace st ++ new |}) ∧
    if decide (message = unauthorized) then
      ∃ rest, new = WsClose :: ApiSetupToken :: rest ∧
              token_refreshes new = 1%nat ∧
              match token with
              | Resolved _ => rest = [WsReconnect]
              | Rejected e =>
                  rest = [WsReconnect;
                          LoggerError "Error in prices.tf socket manager" (OfRejection e)]
              | Pending => rest = []
              end
    else
      new = [WsClose; LoggerError "Error in prices.tf socket manager" (OfEvent message)] ∧
      token_refreshes new = 0%nat.
Proof.
  intros [s Hs]. destruct (decide (message = unauthorized)) as [->|Hne].
  - unfold unauthorized. run. rewrite Hs. simpl.
    destruct token as [[]|e|]; simpl; rewrite ?Hs; simpl; rewrite ?Hs; simpl;
      eexists; (split; [by rewrite <- ?app_assoc|]); by eexists.
  - unfold on_error, seq, ws_close, on_ws. rewrite Hs. simpl.
    destruct (String.eqb_spec message "Unexpected server response: 401") as [->|_];
      [done|].
    unfold emit. simpl.
    eexists. split; [by rewrite <- ?app_assoc, ?Hs|]. done.
Qed.

Lemma on_error_token_refresh_witness :
  (∃ new, on_error unauthorized (Rejected (AxiosError "Request failed with status code 500"))
            connected = (Normal, {| ws := ws connected; trace := [] ++ new |}) ∧
          token_refreshes new = 1%nat) ∧
  (∃ new, on_error "connect ECONNREFUSED" (Resolved tt) connected
            = (Normal, {| ws := ws connected; trace := [] ++ new |}) ∧
          token_refreshes new = 0%nat).
Proof.
  split.
  - destruct (on_error_token_refresh connected unauthorized
                (Rejected (AxiosError "Request failed with status code 500")))
      as (new & Hrun & Hnew); [by eexists|].
    exists new. split; [exact Hrun|].
    rewrite decide_True in Hnew by done. by destruct Hnew as (rest & _ & Hn & _).
  - destruct (on_error_token_refresh connected "connect ECONNREFUSED" (Resolved tt))
      as (new & Hrun & Hnew); [by eexists|].
    exists new. split; [exact Hrun|].
    rewrite decide_False in Hnew by done. by destruct Hnew as [_ Hn].
Defined.

End SocketProofs.

(** ** Further properties of the per-site checks *)

Module SiteChecksMore.
Import Bans JSFacts Observations Scenarios Notions Cases SiteChecks Aggregator.

Lemma requests_app (e : Endpoint) (t t' : list Event) :
  requests e (t ++ t') = (requests e t + requests e t')%nat.
Proof. unfold requests. by rewrite filter_app, length_app. Qed.

Lemma calls_app (m : Method) (t t' : list Event) :
  calls m (t ++ t') = (calls m t + calls m t')%nat.
Proof. unfold calls. by rewrite filter_app, length_app. Qed.

Lemma requests_log (e : Endpoint) (level : Level) (message : string) :
  requests e [Log level message] = 0%nat.
Proof. done. Qed.

Lemma requests_invoke (e : Endpoint) (m : Method) : requests e [Invoke m] = 0%nat.
Proof. done. Qed.

Ltac count :=
  rewrite ?requests_app, ?requests_log, ?requests_invoke;
  repeat match goal with
         | |- context [requests ?e [Request ?e']] =>
             let v := eval vm_compute in (requests e [Request e']) in
             change (requests e [Request e']) with v
         end;
  try lia.

Lemma mptf_scan_first (steamID : string) (pre post : list MptfResult) (r : MptfResult) :
  steamid r = steamID →
  (∀ r', r' ∈ pre → steamid r' ≠ steamID) →
  mptf_scan steamID (pre ++ r :: post) = Some r.
Proof.
  intros Hr. induction pre as [|r' pre IH]; intros Hpre; simpl.
  - by rewrite Hr, String.eqb_refl.
  - destruct (String.eqb_spec steamID (steamid r')) as [Heq|_].
    + exfalso. apply (Hpre r'); [left | done].
    + apply IH. intros r'' Hin. apply Hpre. by right.
Qed.

Section Checks.
Variable self : Self.
Variable net : Network.

(** *** marketplace.tf *)

(** X1.  [isMptfBanned] is rejected exactly when the check is enabled and
    the API key is the empty string, with the error that says so; whatever
    marketplace.tf answers never makes it reject. *)
Theorem isMptfBanned_rejects_iff (st : State) (err : JsError) :
  fst (isMptfBanned self net st) = Rejected err ↔
  checkMptfBanned (options self) = true ∧
  mptfApiKey (options self) = Some "" ∧
  err = Error "Marketplace.tf API key was not set.".
Proof.
  unfold isMptfBanned, run_check, isMptfBanned_start. run.
  destruct (checkMptfBanned (options self)); simpl.
  - case_bool_decide as Hkey; simpl.
    + split; [intros [= <-]; by repeat split | by intros (_ & _ & ->)].
    + pose proof (isMptfBanned_response_rejection self net
                    {| cache := cache st;
                       trace := (trace st ++ [Invoke IsMptfBanned]) ++
                                [Request MarketplaceTfGetUserBan] |}) as Hrej.
      split; [|by intros (_ & ? & _)].
      intros H. rewrite H in Hrej. discriminate Hrej.
  - split; [done | by intros (? & _)].
Qed.

(** X2.  marketplace.tf is requested exactly when the check is enabled and
    the API key is not the empty string, and then once; in the other cases
    the cache is left as it was. *)
Theorem isMptfBanned_requests (st : State) :
  let asked := checkMptfBanned (options self) &&
               negb (bool_decide (mptfApiKey (options self) = Some "")) in
  requests MarketplaceTfGetUserBan (trace (snd (isMptfBanned self net st))) =
    (requests MarketplaceTfGetUserBan (trace st) + (if asked then 1 else 0))%nat ∧
  (asked = false → cache (snd (isMptfBanned self net st)) = cache st).
Proof.
  unfold isMptfBanned, run_check, isMptfBanned_start, isMptfBanned_response,
    isMptfBanned_then, isMptfBanned_catch.
  destruct (checkMptfBanned (options self)); simpl; [|run; split; [count | done]].
  case_bool_decide as Hkey; simpl; [run; split; [count | done]|].
  split; [|done].
  destruct (marketplace_tf net) as [data|err].
  - destruct (data ≫= results) as [l|];
      [destruct (mptf_scan (steamID self) l)|]; run; count.
  - run. destruct logging; run; count.
Qed.

(** X3.  With the check enabled and a usable key, the first entry of
    [results] for the subject decides: [isBanned] is its [banned] (false
    when missing), [content] its ban type (empty when missing); the same
    flag is stored in [_isMptfBanned] and nothing else in the cache
    changes.  Later entries for the subject are not looked at. *)
Theorem isMptfBanned_first_match (st : State)
    (pre post : list MptfResult) (r : MptfResult) :
  checkMptfBanned (options self) = true →
  mptfApiKey (options self) ≠ Some "" →
  marketplace_tf net = Response (Some {| results := Some (pre ++ r :: post) |}) →
  steamid r = steamID self →
  (∀ r', r' ∈ pre → steamid r' ≠ steamID self) →
  fst (isMptfBanned self net st) =
    Resolved (Some (SiteResult.mk (nullish (banned r) false)
                                  (Some (nullish (type <$> ban r) "")))) ∧
  cache (snd (isMptfBanned self net st)) =
    set_isMptfBanned (nullish (banned r) false) (cache st).
Proof.
  intros Hon Hkey Hnet Hr Hpre.
  unfold isMptfBanned, run_check, isMptfBanned_start, isMptfBanned_response,
    isMptfBanned_then.
  rewrite Hon, Hnet. rewrite bool_decide_eq_false_2 by done. run.
  rewrite (mptf_scan_first _ pre post r Hr Hpre). by run.
Qed.

(** X4.  With the check enabled and a usable key, a failed request, an
    empty body and a [results] that is not an array all give [undefined]
    (source unavailable), and the cache is left as it was. *)
Theorem isMptfBanned_unavailable (st : State) :
  checkMptfBanned (options self) = true →
  mptfApiKey (options self) ≠ Some "" →
  (∃ err, marketplace_tf net = Failure err) ∨
  marketplace_tf net = Response None ∨
  marketplace_tf net = Response (Some {| results := None |}) →
  fst (isMptfBanned self net st) = Resolved None ∧
  cache (snd (isMptfBanned self net st)) = cache st.
Proof.
  intros Hon Hkey Hnet.
  unfold isMptfBanned, run_check, isMptfBanned_start, isMptfBanned_response,
    isMptfBanned_then, isMptfBanned_catch.
  rewrite Hon. rewrite bool_decide_eq_false_2 by done.
  destruct Hnet as [[err ->]|[->| ->]]; run; [by destruct logging | done | done].
Qed.

End Checks.

Lemma isMptfBanned_first_match_witness :
  fst (isMptfBanned bot_all_checks marketplace_lists_subject start_state) =
    Resolved (Some (SiteResult.mk true (Some "fraud"))) ∧
  cache (snd (isMptfBanned bot_all_checks marketplace_lists_subject start_state)) =
    set_isMptfBanned true fresh.
Proof.
  apply (isMptfBanned_first_match bot_all_checks marketplace_lists_subject start_state
           someone_else [ {| steamid := subject; banned := None; ban := None |} ]
           banned_account).
  - reflexivity.
  - discriminate.
  - reflexivity.
  - reflexivity.
  - intros r' Hr'. apply list_elem_of_singleton in Hr' as ->. discriminate.
Defined.

Lemma isMptfBanned_unavailable_witness :
  fst (isMptfBanned bot_all_checks marketplace_malformed start_state) = Resolved None ∧
  cache (snd (isMptfBanned bot_all_checks marketplace_malformed start_state)) = fresh.
Proof.
  apply (isMptfBanned_unavailable bot_all_checks marketplace_malformed start_state).
  - reflexivity.
  - discriminate.
  - right. right. reflexivity.
Defined.

Section MoreChecks.
Variable self : Self.
Variable net : Network.

(** *** the untrusted list *)

(** X5.  When the list is fetched, the verdict is the presence of the
    subject in it.  A subject that is listed sets [_isCommunityBanned]; a
    subject that is not listed leaves the cache as it was, so that an
    earlier positive flag is kept. *)
Theorem isListedUntrusted_answer (attempt : Attempt) (st : State) (data : UntrustedJson) :
  github_untrusted net attempt = Response data →
  ∃ r, fst (isListedUntrusted self net attempt st) = Resolved (Some r) ∧
       (SiteResult.isBanned r = true ↔ is_Some (steamids data !! steamID self)) ∧
       cache (snd (isListedUntrusted self net attempt st)) =
         (if SiteResult.isBanned r
          then set_isCommunityBanned true (cache st)
          else cache st).
Proof.
  intros Hnet.
  unfold isListedUntrusted, isListedUntrusted_body, isListedUntrusted_response,
    isListedUntrusted_then.
  run. rewrite Hnet.
  destruct (steamids data !! steamID self) as [entry|]; run;
    eexists; (split; [reflexivity|]); simpl; by split.
Qed.

(** X6.  Whatever the network does, one call of [isListedUntrusted]
    requests the list once or twice, never more, and a call made as the
    retry requests it once; its promise is never rejected. *)
Theorem isListedUntrusted_bounded (attempt : Attempt) (st : State) :
  let before := requests GithubUntrustedJson (trace st) in
  let after := requests GithubUntrustedJson
                 (trace (snd (isListedUntrusted self net attempt st))) in
  (before + 1 ≤ after ≤ before + 2)%nat ∧
  (attempt = retry → after = (before + 1)%nat) ∧
  (∀ err, fst (isListedUntrusted self net attempt st) ≠ Rejected err).
Proof.
  split; [|split]; [| |intros err; apply isListedUntrusted_never_rejects].
  - unfold isListedUntrusted, isListedUntrusted_body, isListedUntrusted_response,
      isListedUntrusted_catch, isListedUntrusted_then.
    run. destruct (github_untrusted net attempt) as [data|e1].
    + destruct (steamids data !! steamID self); run; count.
    + destruct (instanceof_AbortSignal e1 && _); run; [|destruct logging; run; count].
      destruct (github_untrusted net retry) as [data|e2].
      * destruct (steamids data !! steamID self); run; count.
      * rewrite andb_false_r. destruct logging; run; count.
  - intros ->.
    unfold isListedUntrusted, isListedUntrusted_body, isListedUntrusted_response,
      isListedUntrusted_catch, isListedUntrusted_then.
    run. destruct (github_untrusted net retry) as [data|e1].
    + destruct (steamids data !! steamID self); run; count.
    + rewrite andb_false_r. destruct logging; run; count.
Qed.

(** *** steamrep.com *)

(** X7.  When steamrep.com cannot be used (the request fails, or the
    answer has a [reputation] without [summary]), the check answers with
    the flag that backpack.tf gave earlier, without detail, if there is one,
    and with [undefined] otherwise; the cache is left as it was. *)
Theorem isSteamRepMarked_falls_back (st : State) :
  (∃ err, steamrep_com net = Failure err) ∨
  (∃ data rep, steamrep_com net = Response data ∧
               reputation (steamrep data) = Some rep ∧ summary rep = None) →
  fst (isSteamRepMarked self net st) =
    match _isBptfSteamRepBanned (cache st) with
    | Some b => Resolved (Some (SiteResult.mk b None))
    | None => Resolved None
    end ∧
  cache (snd (isSteamRepMarked self net st)) = cache st.
Proof.
  intros Hnet.
  unfold isSteamRepMarked, run_check, isSteamRepMarked_start,
    isSteamRepMarked_response, isSteamRepMarked_then, isSteamRepMarked_catch.
  destruct Hnet as [[err ->]|(data & rep & -> & Hrep & Hsum)];
    rewrite ?Hrep, ?Hsum; run;
    destruct logging; run; by destruct (_isBptfSteamRepBanned (cache st)).
Qed.

(** X8.  When steamrep.com answers with a summary, the check resolves
    with the verdict of the search for "scammer" and the full reputation
    text (empty when missing) as detail, and stores the verdict in
    [_isSteamRepBanned]; the other flags are not touched. *)
Theorem isSteamRepMarked_caches_verdict (st : State) (data : SteamRep) (s : string) :
  steamrep_com net = Response data →
  summary_text data = Some s →
  ∃ b, fst (isSteamRepMarked self net st) =
         Resolved (Some (SiteResult.mk b
                           (Some (nullish (reputation (steamrep data) ≫= full) "")))) ∧
       cache (snd (isSteamRepMarked self net st)) = set_isSteamRepBanned b (cache st) ∧
       (b = true ↔ includes_ignoring_case s "scammer").
Proof.
  intros Hnet Hs. unfold summary_text in Hs.
  unfold isSteamRepMarked, run_check, isSteamRepMarked_start,
    isSteamRepMarked_response, isSteamRepMarked_then.
  rewrite Hnet. destruct (reputation (steamrep data)) as [rep|]; [|done].
  simpl in Hs. rewrite Hs. run. eexists. split; [reflexivity|]. split; [done|].
  rewrite <- (includes_toLowerCase s "scammer").
  change (toLowerCase "scammer") with "scammer".
  rewrite <- indexOf_includes, negb_true_iff. apply Z.eqb_neq.
Qed.

(** *** backpack.tf *)

(** X9.  backpack.tf is requested exactly when an API key is configured
    (neither missing nor empty), and then once; without a key the check
    gives [undefined] and leaves the cache as it was. *)
Theorem isBptfBanned_requests (st : State) :
  let asked := truthy_string (bptfApiKey (options self)) in
  requests BackpackTfUsersInfo (trace (snd (isBptfBanned self net st))) =
    (requests BackpackTfUsersInfo (trace st) + (if asked then 1 else 0))%nat ∧
  (asked = false →
     fst (isBptfBanned self net st) = Resolved None ∧
     cache (snd (isBptfBanned self net st)) = cache st).
Proof.
  unfold isBptfBanned, run_check, isBptfBanned_start, isBptfBanned_response,
    isBptfBanned_then, isBptfBanned_catch.
  destruct (truthy_string (bptfApiKey (options self))); simpl;
    [|run; split; [count | done]].
  split; [|done].
  destruct (backpack_tf net) as [data|err].
  - destruct (users data !! steamID self); run; [count|].
    destruct logging; run; count.
  - run. destruct logging; run; count.
Qed.

(** X10.  With a key and an answer that knows the subject, the verdict is
    the presence of a ban under [all] or ['all features'], the detail is
    always a string, and both backpack.tf flags of the cache are set: the
    ban flag to the verdict, the scammer flag to the test
    [steamrep_scammer === 1]. *)
Theorem isBptfBanned_user_found (st : State) (data : BPTFGetUserInfo) (user : BptfUser) :
  truthy_string (bptfApiKey (options self)) = true →
  backpack_tf net = Response data →
  users data !! steamID self = Some user →
  ∃ b reason sc,
    fst (isBptfBanned self net st) = Resolved (Some (SiteResult.mk b (Some reason))) ∧
    (b = true ↔ ∃ bs, bans user = Some bs ∧ (is_Some (all bs) ∨ is_Some (all_features bs))) ∧
    (sc = true ↔ ∃ bs, bans user = Some bs ∧ steamrep_scammer bs = Some 1) ∧
    cache (snd (isBptfBanned self net st)) =
      set_isBptfSteamRepBanned sc (set_isBptfBanned b (cache st)).
Proof.
  intros Hkey Hnet Huser.
  unfold isBptfBanned, run_check, isBptfBanned_start, isBptfBanned_response,
    isBptfBanned_then.
  rewrite Hkey, Hnet. run. rewrite Huser. run.
  do 3 eexists. split; [reflexivity|]. split; [|split; [|reflexivity]].
  - destruct (bans user) as [bs|].
    + rewrite orb_true_iff, !bool_decide_eq_true. split.
      * intros H. by exists bs.
      * by intros (bs' & [= <-] & H).
    + split; [done | by intros (? & ? & _)].
  - destruct (bans user) as [bs|].
    + rewrite bool_decide_eq_true. split.
      * intros H. by exists bs.
      * by intros (bs' & [= <-] & H).
    + split; [done | by intros (? & ? & _)].
Qed.

(** X11.  With a key, a failed request and an answer that does not know
    the subject both give [undefined], and the flags of an earlier answer
    stay in the cache. *)
Theorem isBptfBanned_unavailable (st : State) :
  truthy_string (bptfApiKey (options self)) = true →
  (∃ err, backpack_tf net = Failure err) ∨
  (∃ data, backpack_tf net = Response data ∧ users data !! steamID self = None) →
  fst (isBptfBanned self net st) = Resolved None ∧
  cache (snd (isBptfBanned self net st)) = cache st.
Proof.
  intros Hkey Hnet.
  unfold isBptfBanned, run_check, isBptfBanned_start, isBptfBanned_response,
    isBptfBanned_then, isBptfBanned_catch.
  rewrite Hkey. destruct Hnet as [[err ->]|(data & -> & Huser)]; run;
    rewrite ?Huser; run; by destruct logging.
Qed.

(** X12.  The order of the two answers matters.  With steamrep.com down:
    if the backpack.tf answer (subject known) is handled first, the
    steamrep check resolves with backpack.tf's scammer flag; handled on a
    cache that does not know that flag, it resolves [undefined]. *)
Theorem steamrep_after_backpack (st : State) (data : BPTFGetUserInfo) (user : BptfUser)
    (err : JsError) :
  truthy_string (bptfApiKey (options self)) = true →
  backpack_tf net = Response data →
  users data !! steamID self = Some user →
  steamrep_com net = Failure err →
  (∃ sc, fst (isSteamRepMarked self net (snd (isBptfBanned self net st))) =
           Resolved (Some (SiteResult.mk sc None)) ∧
         (sc = true ↔ ∃ bs, bans user = Some bs ∧ steamrep_scammer bs = Some 1)) ∧
  (_isBptfSteamRepBanned (cache st) = None →
     fst (isSteamRepMarked self net st) = Resolved None).
Proof.
  intros Hkey Hnet Huser Hdown.
  unfold isSteamRepMarked, isBptfBanned, run_check, isSteamRepMarked_start,
    isSteamRepMarked_response, isSteamRepMarked_catch, isBptfBanned_start,
    isBptfBanned_response, isBptfBanned_then.
  rewrite Hkey, Hnet, Hdown. run. rewrite Huser. run. split.
  - destruct logging; run; eexists; (split; [reflexivity|]);
      (destruct (bans user) as [bs|];
       [ rewrite bool_decide_eq_true; split;
         [ intros H; by exists bs | by intros (bs' & [= <-] & H) ]
       | split; [done | by intros (? & ? & _)] ]).
  - intros Hnone. destruct logging; run; by rewrite Hnone.
Qed.

End MoreChecks.

Lemma isMptfBanned_requests_witness :
  requests MarketplaceTfGetUserBan
    (trace (snd (isMptfBanned bot_without_keys marketplace_lists_subject start_state)))
    = 0%nat ∧
  cache (snd (isMptfBanned bot_without_keys marketplace_lists_subject start_state)) = fresh.
Proof.
  destruct (isMptfBanned_requests bot_without_keys marketplace_lists_subject start_state)
    as [Hcount Hcache].
  split; [exact Hcount | by apply Hcache].
Defined.

Lemma isListedUntrusted_answer_witness :
  ∃ r, fst (isListedUntrusted bot_all_checks (untrusted_answers untrusted_list)
              first start_state) = Resolved (Some r) ∧
       SiteResult.isBanned r = true.
Proof.
  destruct (isListedUntrusted_answer bot_all_checks (untrusted_answers untrusted_list)
              first start_state untrusted_list eq_refl) as (r & Hr & Hlisted & _).
  exists r. split; [exact Hr|]. apply Hlisted. by eexists.
Defined.

Lemma isListedUntrusted_bounded_witness :
  requests GithubUntrustedJson
    (trace (snd (isListedUntrusted bot_all_checks
                   (untrusted_fails AbortSignalValue AbortSignalValue) retry start_state)))
    = 1%nat.
Proof.
  destruct (isListedUntrusted_bounded bot_all_checks
              (untrusted_fails AbortSignalValue AbortSignalValue) retry start_state)
    as (_ & Hretry & _).
  by apply Hretry.
Defined.

Lemma isSteamRepMarked_falls_back_witness :
  fst (isSteamRepMarked bot_all_checks (offline network_error) steamrep_flag_known)
    = Resolved (Some (SiteResult.mk true None)).
Proof.
  destruct (isSteamRepMarked_falls_back bot_all_checks (offline network_error)
              steamrep_flag_known) as [Hr _].
  - left. by eexists.
  - exact Hr.
Defined.

Lemma isSteamRepMarked_caches_verdict_witness :
  ∃ b, fst (isSteamRepMarked bot_all_checks (steamrep_answers steamrep_scammer_answer)
              start_state) = Resolved (Some (SiteResult.mk b (Some "SR SCAMMER"))) ∧
       cache (snd (isSteamRepMarked bot_all_checks (steamrep_answers steamrep_scammer_answer)
                     start_state)) = set_isSteamRepBanned b fresh.
Proof.
  destruct (isSteamRepMarked_caches_verdict bot_all_checks
              (steamrep_answers steamrep_scammer_answer) start_state
              steamrep_scammer_answer "SCAMMER" eq_refl eq_refl) as (b & Hr & Hc & _).
  by exists b.
Defined.

Lemma isBptfBanned_requests_witness :
  fst (isBptfBanned bot_without_keys backpack_up_steamrep_down start_state)
    = Resolved None ∧
  cache (snd (isBptfBanned bot_without_keys backpack_up_steamrep_down start_state)) = fresh.
Proof.
  destruct (isBptfBanned_requests bot_without_keys backpack_up_steamrep_down start_state)
    as [_ Hno]. by apply Hno.
Defined.

Lemma isBptfBanned_user_found_witness :
  ∃ b reason sc,
    fst (isBptfBanned bot_all_checks backpack_up_steamrep_down start_state)
      = Resolved (Some (SiteResult.mk b (Some reason))) ∧
    b = true ∧ sc = true ∧
    cache (snd (isBptfBanned bot_all_checks backpack_up_steamrep_down start_state))
      = set_isBptfSteamRepBanned sc (set_isBptfBanned b fresh).
Proof.
  destruct (isBptfBanned_user_found bot_all_checks backpack_up_steamrep_down start_state
              backpack_data backpack_user eq_refl eq_refl eq_refl)
    as (b & reason & sc & Hr & Hb & Hsc & Hc).
  exists b, reason, sc. split; [exact Hr|]. split; [|split; [|exact Hc]].
  - apply Hb. eexists. split; [reflexivity|]. right. by eexists.
  - apply Hsc. eexists. by split.
Defined.

Lemma isBptfBanned_unavailable_witness :
  fst (isBptfBanned bot_all_checks (offline network_error) steamrep_flag_known)
    = Resolved None ∧
  cache (snd (isBptfBanned bot_all_checks (offline network_error) steamrep_flag_known))
    = set_isBptfSteamRepBanned true fresh.
Proof.
  apply (isBptfBanned_unavailable bot_all_checks (offline network_error)
           steamrep_flag_known eq_refl).
  left. by eexists.
Defined.

Lemma steamrep_after_backpack_witness :
  (∃ sc, fst (isSteamRepMarked bot_all_checks backpack_up_steamrep_down
                (snd (isBptfBanned bot_all_checks backpack_up_steamrep_down start_state)))
           = Resolved (Some (SiteResult.mk sc None)) ∧ sc = true) ∧
  fst (isSteamRepMarked bot_all_checks backpack_up_steamrep_down start_state)
    = Resolved None.
Proof.
  destruct (steamrep_after_backpack bot_all_checks backpack_up_steamrep_down start_state
              backpack_data backpack_user network_error eq_refl eq_refl eq_refl eq_refl)
    as [(sc & Hr & Hsc) Hfresh].
  split; [|by apply Hfresh].
  exists sc. split; [exact Hr|]. apply Hsc. eexists. by split.
Defined.

End SiteChecksMore.

(** ** The exported [isBptfBanned] against the method *)

Module ExportedProofs.
Import Bans Observations Scenarios Notions Cases SiteChecks.

(** X13.  For the same answer of backpack.tf, the exported function and
    the method of the class (which needs an API key to ask at all) agree on
    every verdict; where the method gives [undefined] (failed request,
    unknown subject) the function rejects.  The function requests
    backpack.tf once and touches no cache. *)
Theorem isBptfBanned_function_and_method
    (filterAxiosError : JsError → JsError) (self : Self) (net : Network)
    (st st' : State) (bptfApiKey userID : string) (showLog : bool) :
  truthy_string (Bans.bptfApiKey (options self)) = true →
  let method := fst (Bans.isBptfBanned self net st) in
  let function :=
    Exported.isBptfBanned filterAxiosError (backpack_tf net)
      (steamID self) bptfApiKey userID showLog st' in
  (∀ r, method = Resolved (Some r) ↔ fst function = Resolved r) ∧
  (method = Resolved None ↔ ∃ err, fst function = Rejected err) ∧
  cache (snd function) = cache st' ∧
  requests BackpackTfUsersInfo (trace (snd function)) =
    (requests BackpackTfUsersInfo (trace st') + 1)%nat.
Proof.
  intros Hkey.
  unfold Bans.isBptfBanned, run_check, isBptfBanned_start, isBptfBanned_response,
    isBptfBanned_then, Bans.isBptfBanned_catch, Exported.isBptfBanned,
    Exported.isBptfBanned_catch.
  rewrite Hkey. simpl. run.
  destruct (backpack_tf net) as [data|err]; run.
  - destruct (users data !! steamID self) as [user|]; run.
    + repeat split; try done.
      * by intros [= <-].
      * by intros [= <-].
      * by intros [? ?].
      * SiteChecksMore.count.
    + destruct logging, showLog; run; repeat split; try done;
        try (by eexists); SiteChecksMore.count.
  - destruct logging, showLog; run; repeat split; try done;
      try (by eexists); SiteChecksMore.count.
Qed.

Lemma isBptfBanned_function_and_method_witness :
  fst (Exported.isBptfBanned (λ err, err) (backpack_tf backpack_up_steamrep_down)
         subject "bptf-key" "user" true start_state)
    = Resolved (SiteResult.mk true (Some "fraud")) ∧
  ∃ err, fst (Exported.isBptfBanned (λ err, err) (backpack_tf (offline network_error))
                subject "bptf-key" "user" true start_state) = Rejected err.
Proof.
  split.
  - apply (isBptfBanned_function_and_method (λ err, err) bot_all_checks
             backpack_up_steamrep_down start_state start_state "bptf-key" "user" true
             eq_refl).
    by vm_compute.
  - apply (isBptfBanned_function_and_method (λ err, err) bot_all_checks
             (offline network_error) start_state start_state "bptf-key" "user" true
             eq_refl).
    by vm_compute.
Defined.

End ExportedProofs.

(** ** Further properties of the aggregator *)

Module AggregatorMore.
Import Bans Observations Scenarios Notions Cases SiteChecks Aggregator SiteChecksMore.




Section Invariants.
Variable self : Self.
Variable net : Network.

(** *** The cache only learns *)












(** *** How many requests a call sends *)

Ltac tally e := destruct e; unfold owed, most_requests; simpl; count.

Lemma settle_response_requests (s : Slot) (response : M (Promise R)) (st : State)
    (e : Endpoint) :
  (∀ st', requests e (trace (snd (response st'))) = requests e (trace st')) →
  requests e (trace (snd (settle s response st))) = requests e (trace st).
Proof.
  intros H. destruct s as [|p]; [|done]. unfold settle. run.
  specialize (H st). by destruct (response st).
Qed.

Lemma isMptfBanned_response_requests (e : Endpoint) (st : State) :
  requests e (trace (snd (isMptfBanned_response self net st))) = requests e (trace st).
Proof.
  unfold isMptfBanned_response, isMptfBanned_then, isMptfBanned_catch.
  destruct (marketplace_tf net) as [data|err].
  - destruct (data ≫= results) as [l|];
      [destruct (mptf_scan (steamID self) l)|]; run; count.
  - run. destruct logging; run; count.
Qed.

Lemma isSteamRepMarked_response_requests (e : Endpoint) (st : State) :
  requests e (trace (snd (isSteamRepMarked_response self net st))) = requests e (trace st).
Proof.
  unfold isSteamRepMarked_response, isSteamRepMarked_then, isSteamRepMarked_catch.
  destruct (steamrep_com net) as [data|err].
  - destruct (reputation (steamrep data)) as [rep|]; [destruct (summary rep)|]; run;
      try done;
      destruct logging; run; destruct (_isBptfSteamRepBanned (cache st)); run; count.
  - run. destruct logging; run; destruct (_isBptfSteamRepBanned (cache st)); run; count.
Qed.

Lemma isBptfBanned_response_requests (e : Endpoint) (st : State) :
  requests e (trace (snd (isBptfBanned_response self net st))) = requests e (trace st).
Proof.
  unfold isBptfBanned_response, isBptfBanned_then, isBptfBanned_catch.
  destruct (backpack_tf net) as [data|err].
  - destruct (users data !! steamID self); run; [done|].
    destruct logging; run; count.
  - run. destruct logging; run; count.
Qed.

(** The handler of the untrusted list asks for the list at most once more,
    and for nothing else. *)
Lemma isListedUntrusted_response_requests (e : Endpoint) (st : State) :
  (requests e (trace (snd (isListedUntrusted_response self net
                             (isListedUntrusted self net) first st)))
   ≤ requests e (trace st) + match e with GithubUntrustedJson => 1 | _ => 0 end)%nat ∧
  (e ≠ GithubUntrustedJson →
   requests e (trace (snd (isListedUntrusted_response self net
                             (isListedUntrusted self net) first st)))
   = requests e (trace st)).
Proof.
  unfold isListedUntrusted_response, isListedUntrusted_then, isListedUntrusted_catch,
    isListedUntrusted, isListedUntrusted_body, isListedUntrusted_response,
    isListedUntrusted_catch, isListedUntrusted_then.
  destruct (github_untrusted net first) as [data|e1]; run.
  - destruct (steamids data !! steamID self); run; split; try done; lia.
  - destruct (instanceof_AbortSignal e1); run.
    + destruct (github_untrusted net retry) as [data|e2]; run.
      * destruct (steamids data !! steamID self); run;
          (split; [|intros He]); destruct e; count; try done; congruence.
      * rewrite andb_false_r.
        destruct logging; run; (split; [|intros He]); destruct e; count; try done; congruence.
    + destruct logging; run; (split; [|intros He]); destruct e; count; try done; congruence.
Qed.

Lemma deliver_requests (sl : Slots) (site : Site) (st : State) (e : Endpoint) :
  (requests e (trace (snd (deliver self net sl site st)))
     + owed e (fst (deliver self net sl site st))
   ≤ requests e (trace st) + owed e sl)%nat ∧
  requests RepAutobotTfJson (trace (snd (deliver self net sl site st)))
    = requests RepAutobotTfJson (trace st).
Proof.
  destruct site; unfold deliver; run.
  - destruct (untrusted_slot sl) as [|p] eqn:Hslot; unfold settle, owed; run;
      rewrite ?Hslot; [|split; [lia | done]].
    destruct (isListedUntrusted_response_requests e st) as [Hle _].
    destruct (isListedUntrusted_response_requests RepAutobotTfJson st) as [_ Heq].
    specialize (Heq ltac:(done)).
    destruct (isListedUntrusted_response self net (isListedUntrusted self net) first st).
    simpl in *. split; [destruct e; lia | done].
  - pose proof (settle_response_requests (mptf_slot sl) _ st e
                  (isMptfBanned_response_requests e)) as H.
    pose proof (settle_response_requests (mptf_slot sl) _ st RepAutobotTfJson
                  (isMptfBanned_response_requests RepAutobotTfJson)) as H'.
    destruct (settle _ _ st). unfold owed. simpl in *. split; [lia | done].
  - pose proof (settle_response_requests (steamrep_slot sl) _ st e
                  (isSteamRepMarked_response_requests e)) as H.
    pose proof (settle_response_requests (steamrep_slot sl) _ st RepAutobotTfJson
                  (isSteamRepMarked_response_requests RepAutobotTfJson)) as H'.
    destruct (settle _ _ st). unfold owed. simpl in *. split; [lia | done].
  - pose proof (settle_response_requests (bptf_slot sl) _ st e
                  (isBptfBanned_response_requests e)) as H.
    pose proof (settle_response_requests (bptf_slot sl) _ st RepAutobotTfJson
                  (isBptfBanned_response_requests RepAutobotTfJson)) as H'.
    destruct (settle _ _ st). unfold owed. simpl in *. split; [lia | done].
Qed.

Lemma deliver_all_requests (arrival : list Site) (sl : Slots) (st : State) (e : Endpoint) :
  (requests e (trace (snd (deliver_all self net arrival sl st)))
   ≤ requests e (trace st) + owed e sl)%nat ∧
  requests RepAutobotTfJson (trace (snd (deliver_all self net arrival sl st)))
    = requests RepAutobotTfJson (trace st).
Proof.
  revert sl st. induction arrival as [|site rest IH]; intros sl st; simpl.
  - split; [lia | done].
  - run. destruct (deliver_requests sl site st e) as [Hle Heq].
    destruct (deliver self net sl site st) as [sl' st']. simpl in *.
    destruct (IH sl' st') as [Hle' Heq']. split; [lia | congruence].
Qed.

Lemma start_all_requests (st : State) (e : Endpoint) :
  (requests e (trace (snd (start_all self st))) + owed e (fst (start_all self st))
   ≤ requests e (trace st)
     + match e with RepAutobotTfJson => 0 | _ => most_requests e end)%nat ∧
  requests RepAutobotTfJson (trace (snd (start_all self st)))
    = requests RepAutobotTfJson (trace st).
Proof.
  unfold start_all, isListedUntrusted_start, isMptfBanned_start,
    isSteamRepMarked_start, isBptfBanned_start. run.
  destruct (checkMptfBanned (options self)); run;
    [destruct (bool_decide _); run|];
    destruct (truthy_string (bptfApiKey (options self))); run;
    (split; [tally e | count]).
Qed.

Lemma logIsBanned_requests (result : IsBanned.t) (st : State) (e : Endpoint) :
  requests e (trace (snd (logIsBanned self result st))) = requests e (trace st).
Proof.
  unfold logIsBanned.
  destruct (showLog self) as [[]|], (IsBanned.isBanned result); run; count.
Qed.

Lemma fallback_requests (arrival : list Site) (st : State) (e : Endpoint) :
  (requests e (trace (snd (fallback self net arrival st)))
   ≤ requests e (trace st)
     + match e with RepAutobotTfJson => 0 | _ => most_requests e end)%nat.
Proof.
  unfold fallback, catch_all, finalize. run.
  destruct (start_all_requests st e) as [Hstart _].
  destruct (start_all self st) as [sl0 st1]. simpl in Hstart.
  destruct (deliver_all_requests arrival sl0 st1 e) as [Hd _].
  assert (∀ sl st2, deliver_all self net arrival sl0 st1 = (sl, st2) →
            ∀ r, requests e (trace (snd (logIsBanned self r st2)))
                 ≤ requests e (trace st)
                   + match e with RepAutobotTfJson => 0 | _ => most_requests e end)%nat
    as Hlog.
  { intros sl st2 Heq r. rewrite logIsBanned_requests. rewrite Heq in Hd. simpl in Hd. lia. }
  destruct (Promise_all sl0) as [r0|e0|]; run.
  - destruct (deliver_all self net arrival sl0 st1) as [sl st2] eqn:Hrun; simpl in *.
    destruct (Promise_all sl) as [r|e'|]; run; try lia.
    + specialize (Hlog sl st2 eq_refl (merged self r)).
      by destruct (logIsBanned self (merged self r) st2).
    + destruct (any_cached_flag self (cache st2)); simpl; lia.
  - destruct (any_cached_flag self (cache st1)); simpl;
      destruct (deliver_all self net arrival sl0 st1); simpl in *; lia.
  - destruct (deliver_all self net arrival sl0 st1) as [sl st2] eqn:Hrun; simpl in *.
    destruct (Promise_all sl) as [r|e'|]; run; try lia.
    + specialize (Hlog sl st2 eq_refl (merged self r)).
      by destruct (logIsBanned self (merged self r) st2).
    + destruct (any_cached_flag self (cache st2)); simpl; lia.
Qed.

(** X15.  One [isBanned()] call sends at most two requests for the
    untrusted list and at most one to each other endpoint, whatever the
    network does and however the answers arrive (even if an answer is
    delivered twice). *)
Theorem isBanned_requests_bounded (arrival : list Site) (st : State) (e : Endpoint) :
  (requests e (trace (snd (isBanned self net arrival st)))
   ≤ requests e (trace st) + most_requests e)%nat.
Proof.
  unfold isBanned, resultsFromAutobot. run.
  destruct (rep_autobot_tf net) as [data|err]; run.
  - tally e.
  - pose proof (fallback_requests arrival
                  {| cache := cache st;
                     trace := (trace st ++ [Invoke ResultsFromAutobot]) ++
                              [Request RepAutobotTfJson] |} e) as H.
    simpl in H. revert H. tally e.
Qed.

(** *** When a call settles *)

Lemma isMptfBanned_response_resolves (st : State) :
  ∃ v, fst (isMptfBanned_response self net st) = Resolved v.
Proof.
  unfold isMptfBanned_response, isMptfBanned_then, isMptfBanned_catch.
  destruct (marketplace_tf net) as [data|err].
  - destruct (data ≫= results) as [l|];
      [destruct (mptf_scan (steamID self) l)|]; run; by eexists.
  - run. destruct logging; run; by eexists.
Qed.

Lemma isSteamRepMarked_response_resolves (st : State) :
  ∃ v, fst (isSteamRepMarked_response self net st) = Resolved v.
Proof.
  unfold isSteamRepMarked_response, isSteamRepMarked_then, isSteamRepMarked_catch.
  destruct (steamrep_com net) as [data|err].
  - destruct (reputation (steamrep data)) as [rep|]; [destruct (summary rep)|]; run;
      try (by eexists);
      destruct logging; run; destruct (_isBptfSteamRepBanned (cache st)); by eexists.
  - run. destruct logging; run; destruct (_isBptfSteamRepBanned (cache st)); by eexists.
Qed.

Lemma isBptfBanned_response_resolves (st : State) :
  ∃ v, fst (isBptfBanned_response self net st) = Resolved v.
Proof.
  unfold isBptfBanned_response, isBptfBanned_then, isBptfBanned_catch.
  destruct (backpack_tf net) as [data|err].
  - destruct (users data !! steamID self); run; [by eexists|].
    destruct logging; run; by eexists.
  - run. destruct logging; run; by eexists.
Qed.

Lemma isListedUntrusted_response_resolves (st : State) :
  (∀ err, github_untrusted net first = Failure err → instanceof_AbortSignal err = false) →
  ∃ v, fst (isListedUntrusted_response self net (isListedUntrusted self net) first st)
       = Resolved v.
Proof.
  intros Hno.
  unfold isListedUntrusted_response, isListedUntrusted_then, isListedUntrusted_catch.
  destruct (github_untrusted net first) as [data|err]; run.
  - destruct (steamids data !! steamID self); run; by eexists.
  - rewrite (Hno err eq_refl). run. destruct logging; run; by eexists.
Qed.

Lemma settle_answered (response : M (Promise R)) (st : State) :
  (∃ v, fst (response st) = Resolved v) →
  answered (fst (settle Awaiting response st)).
Proof.
  intros [v Hv]. unfold settle. run. destruct (response st) as [p st'].
  simpl in *. subst p. by eexists.
Qed.

Lemma deliver_slot_settled (sl : Slots) (site site' : Site) (st : State) (p : Promise R) :
  slot_of site' sl = Settled p →
  slot_of site' (fst (deliver self net sl site st)) = Settled p.
Proof.
  destruct site, site'; unfold deliver; simpl; intros H; run;
    rewrite ?H; simpl; try done;
    match goal with |- context [settle ?s ?r st] => by destruct (settle s r st) end.
Qed.

Lemma deliver_slot_other (sl : Slots) (site site' : Site) (st : State) :
  site ≠ site' →
  slot_of site' (fst (deliver self net sl site st)) = slot_of site' sl.
Proof.
  destruct site, site'; unfold deliver; simpl; intros H; run; try done;
    match goal with |- context [settle ?s ?r st] => by destruct (settle s r st) end.
Qed.

Lemma deliver_slot_answered (sl : Slots) (site : Site) (st : State) :
  (∀ err, github_untrusted net first = Failure err → instanceof_AbortSignal err = false) →
  slot_of site sl = Awaiting →
  answered (slot_of site (fst (deliver self net sl site st))).
Proof.
  intros Hno.
  destruct site; unfold deliver; simpl; intros H; run; rewrite H.
  - pose proof (settle_answered _ st (isListedUntrusted_response_resolves st Hno)) as Ha.
    by destruct (settle Awaiting _ st).
  - pose proof (settle_answered _ st (isMptfBanned_response_resolves st)) as Ha.
    by destruct (settle Awaiting _ st).
  - pose proof (settle_answered _ st (isSteamRepMarked_response_resolves st)) as Ha.
    by destruct (settle Awaiting _ st).
  - pose proof (settle_answered _ st (isBptfBanned_response_resolves st)) as Ha.
    by destruct (settle Awaiting _ st).
Qed.

Lemma deliver_all_slot_settled (arrival : list Site) (sl : Slots) (site : Site)
    (st : State) (p : Promise R) :
  slot_of site sl = Settled p →
  slot_of site (fst (deliver_all self net arrival sl st)) = Settled p.
Proof.
  revert sl st. induction arrival as [|s0 rest IH]; intros sl st H; [done|].
  simpl. run. pose proof (deliver_slot_settled sl s0 site st p H) as H'.
  destruct (deliver self net sl s0 st) as [sl' st']. by apply IH.
Qed.

Lemma deliver_all_slot_answered (arrival : list Site) (sl : Slots) (site : Site)
    (st : State) :
  (∀ err, github_untrusted net first = Failure err → instanceof_AbortSignal err = false) →
  site ∈ arrival →
  slot_of site sl = Awaiting ∨ answered (slot_of site sl) →
  answered (slot_of site (fst (deliver_all self net arrival sl st))).
Proof.
  intros Hno. revert sl st.
  induction arrival as [|s0 rest IH]; intros sl st Hin Hslot.
  - by apply elem_of_nil in Hin.
  - simpl. run. destruct Hslot as [Hwait|(p & Hp & Hset)].
    + destruct (decide (s0 = site)) as [->|Hne].
      * pose proof (deliver_slot_answered sl site st Hno Hwait) as (p & Hp & Hset).
        destruct (deliver self net sl site st) as [sl' st']. simpl in *.
        exists p. split; [|done]. by apply deliver_all_slot_settled.
      * pose proof (deliver_slot_other sl s0 site st Hne) as Hsame.
        destruct (deliver self net sl s0 st) as [sl' st']. simpl in *.
        apply IH.
        -- apply elem_of_cons in Hin as [->|Hin]; [done | exact Hin].
        -- left. by rewrite Hsame.
    + pose proof (deliver_slot_settled sl s0 site st p Hp) as Hp'.
      destruct (deliver self net sl s0 st) as [sl' st']. simpl in *.
      exists p. split; [|done]. by apply deliver_all_slot_settled.
Qed.

Lemma start_all_slots (st : State) (site : Site) :
  slot_of site (fst (start_all self st)) = Awaiting ∨
  answered (slot_of site (fst (start_all self st))).
Proof.
  unfold start_all, isListedUntrusted_start, isMptfBanned_start,
    isSteamRepMarked_start, isBptfBanned_start. run.
  destruct (checkMptfBanned (options self)); run;
    [destruct (bool_decide _); run|];
    destruct (truthy_string (bptfApiKey (options self))); run;
    destruct site; simpl; try (by left); right; by eexists.
Qed.

Lemma Promise_all_settled (sl : Slots) :
  (∀ site, answered (slot_of site sl)) → settled (Promise_all sl).
Proof.
  intros H.
  destruct (H Untrusted) as (pu & Hu & Hu'), (H Mptf) as (pm & Hm & Hm'),
    (H SteamRepCom) as (ps & Hs & Hs'), (H Bptf) as (pb & Hb & Hb').
  simpl in *. unfold Promise_all, settled. rewrite Hu, Hm, Hs, Hb. simpl.
  destruct pu, pm, ps, pb; done.
Qed.

(** X16.  A call settles once every site has answered: if each of the
    four sites occurs in the arrival order, and the first request for the
    untrusted list does not fail with an [AbortSignal] value, the promise of
    [isBanned()] is fulfilled or rejected, never left pending. *)
Theorem isBanned_settles (arrival : list Site) (st : State) :
  (∀ site, site ∈ arrival) →
  (∀ err, github_untrusted net first = Failure err → instanceof_AbortSignal err = false) →
  settled (fst (isBanned self net arrival st)).
Proof.
  intros Hall Hno.
  destruct (rep_autobot_tf net) as [data|err0] eqn:Hnet.
  - unfold isBanned, resultsFromAutobot. run. by rewrite Hnet.
  - rewrite (isBanned_fallback self net arrival st err0 Hnet).
    assert (settled (Promise_all (fallback_checks self net arrival st))) as Hs.
    { apply Promise_all_settled. intros site.
      unfold fallback_checks, fan_out.
      generalize (snd (resultsFromAutobot net st)). intros st0.
      unfold mbind, M_bind.
      pose proof (start_all_slots st0 site) as Hstart.
      destruct (start_all self st0) as [sl0 st1]. simpl in Hstart.
      by apply deliver_all_slot_answered. }
    unfold settled in *.
    destruct (Promise_all (fallback_checks self net arrival st)); try done.
    by destruct (any_cached_flag self (cache st)).
Qed.

Lemma deliver_all_slot_untouched (arrival : list Site) (sl : Slots) (site : Site)
    (st : State) :
  site ∉ arrival →
  slot_of site (fst (deliver_all self net arrival sl st)) = slot_of site sl.
Proof.
  revert sl st. induction arrival as [|s0 rest IH]; intros sl st Hout; [done|].
  simpl. run. apply not_elem_of_cons in Hout as [Hne Hout].
  pose proof (deliver_slot_other sl s0 site st ltac:(congruence)) as Hsame.
  destruct (deliver self net sl s0 st) as [sl' st']. simpl in *.
  by rewrite IH.
Qed.

Lemma start_all_steamrep (st : State) :
  steamrep_slot (fst (start_all self st)) = Awaiting.
Proof.
  unfold start_all, isListedUntrusted_start, isMptfBanned_start,
    isSteamRepMarked_start, isBptfBanned_start. run.
  destruct (checkMptfBanned (options self)); run;
    [destruct (bool_decide _); run|];
    by destruct (truthy_string (bptfApiKey (options self))).
Qed.

(** X17.  There is no timeout of the call's own: when rep.autobot.tf has
    failed and steamrep.com never answers, [isBanned()] stays pending,
    whatever the other sites answer, unless the marketplace check rejects at
    once (enabled with an empty API key). *)
Theorem isBanned_waits_for_steamrep (arrival : list Site) (st : State) (err0 : JsError) :
  rep_autobot_tf net = Failure err0 →
  SteamRepCom ∉ arrival →
  ¬ (checkMptfBanned (options self) = true ∧ mptfApiKey (options self) = Some "") →
  fst (isBanned self net arrival st) = Pending.
Proof.
  intros Hnet Hout Hok.
  rewrite (isBanned_fallback self net arrival st err0 Hnet).
  pose proof (fallback_checks_rejected self net arrival st) as Hrej.
  assert (outcome (steamrep_slot (fallback_checks self net arrival st)) = Pending) as Hwait.
  { unfold fallback_checks, fan_out.
    generalize (snd (resultsFromAutobot net st)). intros st0.
    unfold mbind, M_bind.
    pose proof (start_all_steamrep st0) as Hstart.
    destruct (start_all self st0) as [sl0 st1]. simpl in Hstart.
    pose proof (deliver_all_slot_untouched arrival sl0 SteamRepCom st1 Hout) as Hsame.
    simpl in Hsame. by rewrite Hsame, Hstart. }
  revert Hrej Hwait. generalize (fallback_checks self net arrival st). intros sl Hrej Hwait.
  destruct (Promise_all sl) as [r|e|] eqn:Hall.
  - unfold Promise_all in Hall. rewrite Hwait in Hall.
    destruct (outcome (untrusted_slot sl)), (outcome (mptf_slot sl)),
      (outcome (bptf_slot sl)); discriminate Hall.
  - destruct (Hrej e) as [(Hon & Hkey & _) _]; [done|]. by destruct Hok.
  - done.
Qed.

(** *** The decision and its details *)

Lemma describe_banned (r : SiteResult.t) :
  SiteResult.isBanned r = true → describe r ≠ "clean".
Proof.
  unfold describe. intros ->.
  destruct (SiteResult.content r) as [[|c s]|]; intros H; vm_compute in H; discriminate H.
Qed.

Lemma describe_clean (r : SiteResult.t) :
  SiteResult.isBanned r = false → describe r = "clean".
Proof. unfold describe. by intros ->. Qed.

Lemma set_site_lookup (site : string) (guard : bool) (r : R) (c : Contents) (k : string) :
  set_site site guard r c !! k =
  if decide (site = k)
  then match (if guard then detail r else None) with
       | Some d => Some d
       | None => c !! k
       end
  else c !! k.
Proof.
  unfold set_site, detail. case_decide as Hk.
  - subst k. destruct r as [r|], guard; try done. by rewrite lookup_insert_eq.
  - destruct r as [r|], guard; try done. by rewrite lookup_insert_ne.
Qed.

(** The details that [finalize] writes when some site gave a result. *)
Lemma merged_contents (results : ResultSources.t) :
  validResults results ≠ [] →
  ∃ c, IsBanned.contents (merged self results) = Some c ∧
       c !! "Backpack.tf" = detail (ResultSources.bptf results) ∧
       c !! "Marketplace.tf" =
         (if checkMptfBanned (options self)
          then detail (ResultSources.mptf results) else None) ∧
       c !! "TF2Autobot" = detail (ResultSources.untrusted results) ∧
       c !! "Steamrep.com:" = detail (ResultSources.steamrep results) ∧
       ∀ k d, c !! k = Some d →
              k = "Backpack.tf" ∨ k = "Marketplace.tf" ∨ k = "TF2Autobot" ∨
              k = "Steamrep.com:".
Proof.
  intros Hvalid. unfold merged. rewrite bool_decide_eq_true_2;
    [|destruct (validResults results); [done | simpl; lia]].
  eexists. split; [reflexivity|].
  repeat split.
  - rewrite !set_site_lookup, lookup_empty.
    repeat (case_decide; [discriminate|]). rewrite decide_True by done.
    by destruct (detail _).
  - rewrite !set_site_lookup, lookup_empty.
    repeat (case_decide; [discriminate|]). rewrite decide_True by done.
    rewrite decide_False by discriminate.
    destruct (checkMptfBanned (options self)); [|done]. by destruct (detail _).
  - rewrite !set_site_lookup, lookup_empty.
    repeat (case_decide; [discriminate|]). rewrite decide_True by done.
    rewrite !decide_False by discriminate.
    by destruct (detail _).
  - rewrite !set_site_lookup, lookup_empty.
    rewrite decide_True by done. rewrite !decide_False by discriminate.
    by destruct (detail _).
  - intros k d. rewrite !set_site_lookup, lookup_empty.
    repeat case_decide; subst; try discriminate; intros _; auto 6.
Qed.

Lemma Promise_all_resolved (sl : Slots) (results : ResultSources.t) :
  Promise_all sl = Resolved results →
  outcome (mptf_slot sl) = Resolved (ResultSources.mptf results).
Proof.
  unfold Promise_all.
  destruct (outcome (untrusted_slot sl)), (outcome (mptf_slot sl)),
    (outcome (steamrep_slot sl)), (outcome (bptf_slot sl)); try done.
  by intros [= <-].
Qed.

Lemma start_all_mptf_disabled (st : State) :
  checkMptfBanned (options self) = false →
  mptf_slot (fst (start_all self st)) = Settled (Resolved None).
Proof.
  intros Hoff.
  unfold start_all, isListedUntrusted_start, isMptfBanned_start,
    isSteamRepMarked_start, isBptfBanned_start. run. rewrite Hoff. run.
  by destruct (truthy_string (bptfApiKey (options self))).
Qed.

(** With the marketplace check disabled, the merge sees no marketplace
    result. *)
Lemma fallback_checks_mptf_disabled (arrival : list Site) (st : State)
    (results : ResultSources.t) :
  checkMptfBanned (options self) = false →
  Promise_all (fallback_checks self net arrival st) = Resolved results →
  ResultSources.mptf results = None.
Proof.
  intros Hoff Hall. apply Promise_all_resolved in Hall.
  revert Hall. unfold fallback_checks, fan_out.
  generalize (snd (resultsFromAutobot net st)). intros st0.
  unfold mbind, M_bind.
  pose proof (start_all_mptf_disabled st0 Hoff) as Hstart.
  destruct (start_all self st0) as [sl0 st1]. simpl in Hstart.
  pose proof (deliver_all_slot_settled arrival sl0 Mptf st1 _ Hstart) as Hkeep.
  simpl in Hkeep. rewrite Hkeep. simpl. by intros [= <-].
Qed.

Lemma detail_banned (r : R) (text : option string) :
  flag r = true → detail r = Some text → reports_ban text.
Proof.
  destruct r as [r|]; [|done]. simpl. intros Hb [= <-] [= H].
  by apply (describe_banned r Hb).
Qed.

Lemma detail_clean (r : R) (text : option string) :
  flag r = false → detail r = Some text → text = Some "clean".
Proof.
  destruct r as [r|]; [|done]. simpl. intros Hb [= <-].
  by rewrite (describe_clean r Hb).
Qed.

(** X18.  In the result of the fallback the decision and the details
    agree: a result with [isBanned] true carries at least one detail that is
    not ["clean"] (a site's ["banned..."] text, or the ["default-rule"]
    text), and in a result with [isBanned] false every detail is ["clean"]. *)
Theorem isBanned_decision_and_details
    (arrival : list Site) (st : State) (err0 : JsError) (result : IsBanned.t) :
  rep_autobot_tf net = Failure err0 →
  fst (isBanned self net arrival st) = Resolved result →
  (IsBanned.isBanned result = true →
     ∃ contents site text,
       IsBanned.contents result = Some contents ∧
       contents !! site = Some text ∧ reports_ban text) ∧
  (IsBanned.isBanned result = false →
     ∀ contents site text,
       IsBanned.contents result = Some contents →
       contents !! site = Some text → text = Some "clean").
Proof.
  intros Hnet. rewrite (isBanned_fallback self net arrival st err0 Hnet).
  pose proof (fallback_checks_mptf_disabled arrival st) as Hoff.
  destruct (Promise_all (fallback_checks self net arrival st)) as [results|e|];
    [| destruct (any_cached_flag self (cache st)); [done|]; intros [= <-];
       split; [done | by intros _ c site text [=]]
     | done ].
  specialize (Hoff results). intros [= <-].
  destruct (decide (validResults results = [])) as [Hnone|Hsome].
  - unfold merged. rewrite Hnone. simpl. split; [|done]. intros _.
    eexists _, "default-rule", _. split; [reflexivity|]. split; [reflexivity|].
    by intros [= H].
  - rewrite (merged_isBanned self results Hsome).
    destruct (merged_contents results Hsome) as (c & -> & Hb & Hm & Hu & Hs & Hkeys).
    split.
    + intros Hor. exists c.
      apply orb_true_iff in Hor as [Hor|Hflag];
        [apply orb_true_iff in Hor as [Hor|Hflag];
           [apply orb_true_iff in Hor as [Hflag|Hflag]|]|].
      * destruct (ResultSources.bptf results) as [r|] eqn:Hr; [|done].
        exists "Backpack.tf", (Some (describe r)). split; [done|].
        split; [done | by eapply detail_banned].
      * destruct (ResultSources.mptf results) as [r|] eqn:Hr; [|done].
        destruct (checkMptfBanned (options self)); [|by specialize (Hoff eq_refl eq_refl)].
        exists "Marketplace.tf", (Some (describe r)). split; [done|].
        split; [done | by eapply detail_banned].
      * destruct (ResultSources.steamrep results) as [r|] eqn:Hr; [|done].
        exists "Steamrep.com:", (Some (describe r)). split; [done|].
        split; [done | by eapply detail_banned].
      * destruct (ResultSources.untrusted results) as [r|] eqn:Hr; [|done].
        exists "TF2Autobot", (Some (describe r)). split; [done|].
        split; [done | by eapply detail_banned].
    + intros Hor c' site text [= <-] Hsite.
      apply orb_false_iff in Hor as [Hor Hfu].
      apply orb_false_iff in Hor as [Hor Hfs].
      apply orb_false_iff in Hor as [Hfb Hfm].
      destruct (Hkeys site text Hsite) as [-> | [-> | [-> | ->]]].
      * rewrite Hb in Hsite. exact (detail_clean _ _ Hfb Hsite).
      * rewrite Hm in Hsite. destruct (checkMptfBanned (options self)); [|done].
        exact (detail_clean _ _ Hfm Hsite).
      * rewrite Hu in Hsite. exact (detail_clean _ _ Hfu Hsite).
      * rewrite Hs in Hsite. exact (detail_clean _ _ Hfs Hsite).
Qed.

End Invariants.

Lemma isBanned_settles_witness :
  settled (fst (isBanned bot_all_checks (offline network_error) every_site start_state)).
Proof.
  apply (isBanned_settles bot_all_checks (offline network_error) every_site start_state).
  - intros site. apply list_elem_of_In. destruct site; simpl; auto.
  - by intros err [= <-].
Defined.

Lemma isBanned_waits_for_steamrep_witness :
  fst (isBanned bot_all_checks (offline network_error) [Untrusted; Mptf; Bptf] start_state)
    = Pending.
Proof.
  apply (isBanned_waits_for_steamrep bot_all_checks (offline network_error)
           [Untrusted; Mptf; Bptf] start_state network_error eq_refl).
  - rewrite list_elem_of_In. simpl. intros [H|[H|[H|[]]]]; discriminate H.
  - by intros [_ [=]].
Defined.

Lemma isBanned_decision_and_details_witness :
  ∃ contents site text,
    IsBanned.contents (merged bot_all_checks backpack_verdict) = Some contents ∧
    contents !! site = Some text ∧ reports_ban text.
Proof.
  apply (isBanned_decision_and_details bot_all_checks only_backpack_answers every_site
           start_state network_error (merged bot_all_checks backpack_verdict) eq_refl).
  - by vm_compute.
  - reflexivity.
Defined.

End AggregatorMore.

(** ** Further properties of [getDiff] *)

Module GetDiffMore.
Import GetDiff Notions Scenarios Cases GetDiffProofs.








(** X22.  The result does not depend on the order in which the two [for
    ... in] loops meet the keys: any enumeration of the own entries of each
    side gives the mapping that [getDiff] returns. *)
Theorem getDiff_any_order (offer : TradeOffer) (dict : Dict)
    (ours theirs : list (string * Z)) :
  data offer "dict" = Some dict →
  ours ≡ₚ map_to_list (our dict) →
  theirs ≡ₚ map_to_list (their dict) →
  getDiff offer = Some (foldl add_their (foldl sub_our ∅ ours) theirs).
Proof.
  intros Hdict Hours Htheirs. unfold getDiff. rewrite Hdict. f_equal.
  unfold add_their, sub_our.
  by rewrite (loop_any_order Z.sub _ _ ours Hours),
    (loop_any_order Z.add _ _ theirs Htheirs).
Qed.



Lemma getDiff_any_order_witness :
  getDiff offer_example =
  Some (foldl add_their
          (foldl sub_our ∅ [("5002;6", 1); ("5021;6", 3)])
          [("5000;6", 2); ("5002;6", 4)]).
Proof.
  apply (getDiff_any_order offer_example
           {| our := {[ "5021;6" := 3; "5002;6" := 1 ]};
              their := {[ "5002;6" := 4; "5000;6" := 2 ]} |}).
  - reflexivity.
  - vm_compute. first [reflexivity | apply perm_swap].
  - vm_compute. first [reflexivity | apply perm_swap].
Defined.

End GetDiffMore.

(** ** Further properties of the socket manager *)

Module SocketMore.
Import PricesTfSocketManager Notions Scenarios Cases.

(** X23.  [shutDown] never throws and leaves no socket; it closes the
    connection exactly when there was one, so a second [shutDown] does
    nothing. *)
Theorem shutDown_closes_once (st : State) :
  fst (shutDown st) = Normal ∧
  ws (snd (shutDown st)) = None ∧
  trace (snd (shutDown st)) =
    trace st ++ (if ws st is Some _ then [WsClose] else []) ∧
  shutDown (snd (shutDown st)) = (Normal, snd (shutDown st)).
Proof.
  unfold shutDown, seq, ws_close, on_ws, emit.
  destruct (ws st) as [s|] eqn:Hws; simpl; rewrite ?Hws; simpl;
    repeat split; rewrite ?app_nil_r, ?Hws; done.
Qed.

(** X24.  [init] never throws.  It closes the previous connection, if
    any, before it creates the new socket; the new socket listens to
    ["open"], ["error"] and ["close"] only, so listeners added with [on]
    before are gone; and [init] does not connect. *)
Theorem init_fresh_socket (st : State) :
  fst (init st) = Normal ∧
  ws (snd (init st)) = Some {| listeners := ["open"; "error"; "close"] |} ∧
  trace (snd (init st)) =
    trace st ++ (if ws st is Some _ then [WsClose] else [])
             ++ [NewReconnectingWebSocket "wss://ws.prices.tf"] ∧
  occurrences WsReconnect (trace (snd (init st))) = occurrences WsReconnect (trace st).
Proof.
  unfold init, shutDown, ws_addEventListener, seq, ws_close, on_ws, emit, occurrences.
  destruct (ws st) as [s|] eqn:Hws; simpl; rewrite ?Hws; simpl;
    rewrite ?filter_app, ?length_app, <- ?app_assoc; simpl; repeat split; lia.
Qed.

(** X25.  [connect] and [on] need a socket: without one (before [init],
    after [shutDown]) they throw a [TypeError] and change nothing.  So
    [shutDown] followed by [connect] always throws, and [init] followed by
    [connect] never does and asks for one reconnection. *)
Theorem connect_needs_socket (st : State) (name : string) :
  (ws st = None →
     (∃ message, connect st = (Throw (TypeError message), st)) ∧
     (∃ message, on name st = (Throw (TypeError message), st))) ∧
  (∃ message, (shutDown >> connect) st = (Throw (TypeError message), snd (shutDown st))) ∧
  (init >> connect) st =
    (Normal, {| ws := ws (snd (init st));
                trace := trace (snd (init st)) ++ [WsReconnect] |}).
Proof.
  split; [|split].
  - intros Hws. unfold connect, on, ws_reconnect, on_ws, ws_addEventListener.
    rewrite Hws. split; by eexists.
  - unfold connect, shutDown, seq, ws_reconnect, ws_close, on_ws, emit.
    destruct (ws st) as [s|] eqn:Hws; simpl; rewrite ?Hws; simpl; by eexists.
  - unfold connect, init, shutDown, ws_addEventListener, seq, ws_reconnect, ws_close,
      on_ws, emit.
    destruct (ws st) as [s|] eqn:Hws; simpl; by rewrite ?Hws.
Qed.

(** X26.  An error event that arrives when there is no socket makes the
    listener throw at [this.ws.close()]: no token is requested and nothing
    is logged, whatever the message.  Likewise the continuation of a token
    refresh that settles after the socket is gone throws and logs nothing. *)
Theorem on_error_without_socket (st : State) (message : string) (token : Promise unit) :
  ws st = None →
  (∃ text, on_error message token st = (Throw (TypeError text), st)) ∧
  (token ≠ Pending → ∃ text, after_setupToken token st = (Throw (TypeError text), st)).
Proof.
  intros Hws. split.
  - unfold on_error, seq, ws_close, on_ws. rewrite Hws. by eexists.
  - unfold after_setupToken, seq, ws_reconnect, on_ws.
    destruct token as [[]|e|]; [| |done]; intros _; rewrite Hws; simpl;
      rewrite ?Hws; by eexists.
Qed.

Lemma connect_needs_socket_witness :
  (∃ message, connect no_socket = (Throw (TypeError message), no_socket)) ∧
  (∃ message, on "message" no_socket = (Throw (TypeError message), no_socket)).
Proof.
  destruct (connect_needs_socket no_socket "message") as [H _]. by apply H.
Defined.

Lemma on_error_without_socket_witness :
  (∃ text, on_error unauthorized (Resolved tt) no_socket = (Throw (TypeError text), no_socket)) ∧
  (∃ text, after_setupToken (Resolved tt) no_socket = (Throw (TypeError text), no_socket)).
Proof.
  destruct (on_error_without_socket no_socket unauthorized (Resolved tt) eq_refl)
    as [Hlistener Hlater].
  split; [exact Hlistener | by apply Hlater].
Defined.

End SocketMore.

(** ** Properties of [invalid] *)

Module InvalidProofs.
Import Invalid Cases.

(** X27.  [invalid] sends exactly one message, to the partner of the
    offer, and never an empty one: the configured text when there is a
    non-empty one, the default text otherwise. *)
Theorem invalid_sends_one_message (offer : TradeOffer) (bot : Bot) (sent : list Event) :
  ∃ message,
    invalid offer bot sent = sent ++ [SendMessage (partner offer) message] ∧
    message ≠ "" ∧
    (tradedAway (customMessage (options bot)) = Some message ∨
     (message = default_message ∧
      (tradedAway (customMessage (options bot)) = None ∨
       tradedAway (customMessage (options bot)) = Some ""))).
Proof.
  unfold invalid, Bans.truthy_string.
  destruct (tradedAway (customMessage (options bot))) as [text|]; simpl.
  - destruct (String.eqb_spec text "") as [->|Hne]; simpl.
    + exists default_message. split; [done|]. split; [done | right; auto].
    + exists text. split; [done|]. split; [done | by left].
  - exists default_message. split; [done|]. split; [done | right; auto].
Qed.

End InvalidProofs.
